(** * Xanespy beamline scripts: a shallow embedding of [beamlines.py]

    The first part follows the source file top to bottom:

    - the Python primitives the module relies on (exceptions, truthiness,
      [range], [str.format] on integers) and numbers as a duck-typed
      interface, with [int], exact rationals and binary64 floats as
      instances;
    - the [Zoneplate] / [Detector] calibration class;
    - [write_scaninfo_header];
    - [ssrl6_xanes_script] and [sector8_xanes_script], written with explicit
      state passing over the text sinks they append to, each followed by
      the closed forms of the text its loops produce.

    A text file is the string of everything written to it so far, and
    [f.write(s)] appends [s].

    The second part proves that the loops produce the closed forms and
    derives the statements about the scripts from them. *)

From Stdlib Require Import ZArith List String Ascii Bool Lia.
From Stdlib Require Import QArith Qcanon Floats DecimalString.
From Stdlib Require Import Permutation.
Import ListNotations.

Local Open Scope Z_scope.
Local Open Scope string_scope.

(* ================================================================= *)
(** ** Python primitives *)

Module Py.

(** The exceptions the module can raise, directly or through the
    interpreter. *)
Inductive exn : Type :=
| ValueError (msg : string)
| NotImplementedError (msg : string)
| ZeroDivisionError
| IndexError
| NameError (var : string).

(** A computation that returns or raises. *)
Inductive exc (A : Type) : Type :=
| Return (a : A)
| Raise (e : exn).
Arguments Return {A} a.
Arguments Raise {A} e.

Definition bind {A B} (m : exc A) (k : A -> exc B) : exc B :=
  match m with
  | Return a => k a
  | Raise e => Raise e
  end.

(** A [for] loop whose body may raise: the state reached so far is kept,
    the remaining items are skipped. *)
Fixpoint for_each {A S} (body : S -> A -> S * option exn) (l : list A) (s : S)
    : S * option exn :=
  match l with
  | [] => (s, None)
  | a :: l' =>
      match body s a with
      | (s', None) => for_each body l' s'
      | (s', Some e) => (s', Some e)
      end
  end.

(** Truth value of an [int]. *)
Definition truthy (n : Z) : bool := negb (n =? 0)%Z.

(** *** Sequences *)

(** [range(lo, hi)] over integers. *)
Definition range (lo hi : Z) : list Z :=
  map (fun k => lo + Z.of_nat k) (seq 0 (Z.to_nat (hi - lo))).

(** [range(lo, hi, step)] for a non-zero [step]: [ceil((hi - lo) / step)]
    values.  On integers (within [int64]) [numpy.arange(lo, hi, step)]
    yields the same values. *)
Definition range_step (lo hi step : Z) : list Z :=
  map (fun k => lo + Z.of_nat k * step)
      (seq 0 (Z.to_nat (- ((lo - hi) / step)))).

(** [enumerate(l)]. *)
Definition enumerate {A} (l : list A) : list (Z * A) :=
  combine (range 0 (Z.of_nat (List.length l))) l.

(** [l[-1]]. *)
Definition last_item {A} (l : list A) : exc A :=
  match rev l with
  | [] => Raise IndexError
  | a :: _ => Return a
  end.

(** [l[i]], counting from the end when [i] is negative. *)
Definition getitem {A} (l : list A) (i : Z) : exc A :=
  let i := if (i <? 0)%Z then Z.of_nat (List.length l) + i else i in
  if (i <? 0)%Z then Raise IndexError
  else match nth_error l (Z.to_nat i) with
       | Some a => Return a
       | None => Raise IndexError
       end.

(** *** Texts *)

(** The line terminator, ['\n']. *)
Definition nl_char : ascii := ascii_of_nat 10.
Definition nl : string := String nl_char EmptyString.

(** [f.write(s)] on a text file. *)
Definition write (f s : string) : string := f ++ s.

(** [''.join(l)]. *)
Definition join (l : list string) : string := fold_right append EmptyString l.

(** [s.split(sep)] for a one-character separator. *)
Fixpoint split (sep : ascii) (s : string) : list string :=
  match s with
  | EmptyString => [EmptyString]
  | String c s' =>
      if Ascii.eqb c sep then EmptyString :: split sep s'
      else match split sep s' with
           | [] => [String c EmptyString]
           | p :: ps => String c p :: ps
           end
  end.

(** [s.splitlines()] for texts whose only line boundary is ['\n']. *)
Fixpoint lines (s : string) : list string :=
  match s with
  | EmptyString => []
  | String c s' =>
      if Ascii.eqb c nl_char then EmptyString :: lines s'
      else match lines s' with
           | [] => [String c EmptyString]
           | l :: ls => String c l :: ls
           end
  end.

(** ['\n' in s]. *)
Fixpoint has_nl (s : string) : bool :=
  match s with
  | EmptyString => false
  | String c s' => Ascii.eqb c nl_char || has_nl s'
  end.

(** ['.' in s]. *)
Fixpoint has_dot (s : string) : bool :=
  match s with
  | EmptyString => false
  | String c s' => Ascii.eqb c "." || has_dot s'
  end.

(** [s[len(p):]] when [s.startswith(p)]. *)
Fixpoint strip_prefix (p s : string) : option string :=
  match p, s with
  | EmptyString, _ => Some s
  | String a p', String b s' =>
      if Ascii.eqb a b then strip_prefix p' s' else None
  | String _ _, EmptyString => None
  end.

(** *** Formatting integers *)

(** [str(n)] for an [int]; also ['{}'.format(n)] and ['{:d}'.format(n)]. *)
Definition str_int (n : Z) : string := NilZero.string_of_int (Z.to_int n).

Fixpoint zeros (k : nat) : string :=
  match k with
  | O => EmptyString
  | S k' => String "0" (zeros k')
  end.

(** Left padding with ['0'] up to [width] characters. *)
Definition zfill (width : nat) (s : string) : string :=
  zeros (width - String.length s) ++ s.

(** ['{:0<width>d}'.format(n)]: the padding goes after the sign. *)
Definition fmt_0d (width : nat) (n : Z) : string :=
  if (n <? 0)%Z then "-" ++ zfill (width - 1) (str_int (- n))
  else zfill width (str_int n).

End Py.

Import Py.

Notation "x <- m ;; k" := (Py.bind m (fun x => k))
  (at level 61, m at next level, right associativity).

(* ================================================================= *)
(** ** Numbers *)

(** Numbers are duck-typed in the source: coordinates and energies are
    whatever the caller stored in the named tuples.  The operations the
    module applies to them form this interface; [of_int] is the implicit
    conversion of an [int] literal in mixed arithmetic. *)
Class PyNumber (T : Type) : Type := {
  add : T -> T -> T;
  sub : T -> T -> T;
  mul : T -> T -> T;
  of_int : Z -> T;
}.

(** True division, [a / b], which raises on a zero divisor. *)
Class PyTrueDiv (T : Type) : Type := {
  is_zero : T -> bool;
  quotient : T -> T -> T;
}.

Definition truediv {T} `{PyTrueDiv T} (a b : T) : exc T :=
  if is_zero b then Raise ZeroDivisionError else Return (quotient a b).

(** [numpy.arange(start, stop, step)]. *)
Class NumPy (T : Type) : Type := {
  arange : T -> T -> T -> list T;
}.

(** The float presentation types used by the format strings. *)
Class PyFormat (T : Type) : Type := {
  fmt_2f : T -> string;    (* '{:.2f}' and '{:.02f}' *)
  fmt_071f : T -> string;  (* '{:07.1f}' *)
}.

(** *** Instances *)

(** Python [int]. *)
#[export] Instance Z_number : PyNumber Z :=
  {| add := Z.add; sub := Z.sub; mul := Z.mul; of_int := fun n => n |}.

#[export] Instance Z_numpy : NumPy Z := {| arange := range_step |}.

(** An [int] formatted with the [f] presentation type is converted to
    [float] first; up to [2 ** 53] in magnitude the conversion is exact and
    the digits are those of the integer, followed by zero decimals. *)
#[export] Instance Z_format : PyFormat Z :=
  {| fmt_2f := fun n => str_int n ++ ".00";
     fmt_071f := fun n =>
       if (n <? 0)%Z then "-" ++ zfill 6 (str_int (- n) ++ ".0")
       else zfill 7 (str_int n ++ ".0") |}.

(** Exact rationals ([fractions.Fraction]). *)
#[export] Instance Qc_number : PyNumber Qc :=
  {| add := Qcplus; sub := Qcminus; mul := Qcmult;
     of_int := fun n => Q2Qc (inject_Z n) |}.

#[export] Instance Qc_truediv : PyTrueDiv Qc :=
  {| is_zero := fun q => Qc_eq_bool q (Q2Qc 0); quotient := Qcdiv |}.

(** Python [float]: IEEE 754 binary64, round to nearest even.  [of_int]
    is exact up to [2 ** 53] in magnitude. *)
#[export] Instance float_number : PyNumber float :=
  {| add := PrimFloat.add; sub := PrimFloat.sub; mul := PrimFloat.mul;
     of_int := fun n =>
       if (n <? 0)%Z then PrimFloat.opp (PrimFloat.of_uint63 (Uint63.of_Z (- n)))
       else PrimFloat.of_uint63 (Uint63.of_Z n) |}.

#[export] Instance float_truediv : PyTrueDiv float :=
  {| is_zero := fun f => PrimFloat.eqb f PrimFloat.zero;
     quotient := PrimFloat.div |}.

(** [math.isfinite(f)] and [math.isnan(f)]. *)
Definition float_finite (f : float) : bool :=
  match Prim2SF f with
  | S754_zero _ | S754_finite _ _ _ => true
  | S754_infinity _ | S754_nan => false
  end.

Definition float_isnan (f : float) : bool :=
  match Prim2SF f with
  | S754_nan => true
  | _ => false
  end.

(* ================================================================= *)
(** ** Named tuples *)

(** [utilities.position = namedtuple('position', ('x', 'y', 'z'))]. *)
Record position (T : Type) : Type := Position { x : T; y : T; z : T }.
Arguments Position {T} x y z.
Arguments x {T} p.
Arguments y {T} p.
Arguments z {T} p.

(** [ZoneplatePoint = namedtuple('ZoneplatePoint', ('x', 'y', 'z', 'energy'))]. *)
Module ZoneplatePoint.
Record t (T : Type) : Type := make { x : T; y : T; z : T; energy : T }.
Arguments make {T} x y z energy.
Arguments x {T} _.
Arguments y {T} _.
Arguments z {T} _.
Arguments energy {T} _.
End ZoneplatePoint.

(* ================================================================= *)
(** ** class Zoneplate *)

Module Zoneplate.
Section Methods.
Context {T : Type} `{PyNumber T}.

(** The attributes [self.start] and [self.step]. *)
Record t : Type := make { start : ZoneplatePoint.t T; step : position T }.

(** [Zoneplate.__init__(self, start, z_step=None, end=None)]. *)
Definition init `{PyTrueDiv T} (start : ZoneplatePoint.t T)
    (z_step : option T) (end_ : option (ZoneplatePoint.t T)) : exc t :=
  match z_step, end_ with
  | None, None => Raise (ValueError "Either `step` or `end` is required.")
  | Some _, Some _ =>
      Raise (ValueError "Passing both `step` or `end` is confusing.")
  | None, Some end_ =>
      sx <- truediv (sub (ZoneplatePoint.x end_) (ZoneplatePoint.x start))
                    (sub (ZoneplatePoint.energy end_)
                         (ZoneplatePoint.energy start)) ;;
      sy <- truediv (sub (ZoneplatePoint.y end_) (ZoneplatePoint.y start))
                    (sub (ZoneplatePoint.energy end_)
                         (ZoneplatePoint.energy start)) ;;
      sz <- truediv (sub (ZoneplatePoint.z end_) (ZoneplatePoint.z start))
                    (sub (ZoneplatePoint.energy end_)
                         (ZoneplatePoint.energy start)) ;;
      Return {| start := start; step := Position sx sy sz |}
  | Some z_step, None =>
      Return {| start := start;
                step := Position (of_int 0) (of_int 0) z_step |}
  end.

(** [Zoneplate.position(self, energy)]. *)
Definition position (self : t) (energy : T) : position T :=
  Position
    (add (ZoneplatePoint.x (start self))
         (mul (x (step self)) (sub energy (ZoneplatePoint.energy (start self)))))
    (add (ZoneplatePoint.y (start self))
         (mul (y (step self)) (sub energy (ZoneplatePoint.energy (start self)))))
    (add (ZoneplatePoint.z (start self))
         (mul (z (step self)) (sub energy (ZoneplatePoint.energy (start self))))).

(** [Zoneplate.z_position(self, energy)]. *)
Definition z_position (self : t) (energy : T) : exc T :=
  Raise (NotImplementedError "Use position().z instead").

End Methods.
Arguments t T : clear implicits.
End Zoneplate.

(** [class Detector(Zoneplate): pass] *)
Module Detector := Zoneplate.

(* ================================================================= *)
(** ** write_scaninfo_header *)

Definition write_scaninfo_header (f : string) (abba_mode : bool)
    (repetitions ref_repetitions : Z) : string :=
  let f := write f ("VERSION 1" ++ nl) in
  let f := write f ("ENERGY 1" ++ nl) in
  let f := write f ("TOMO 0" ++ nl) in
  let f := write f ("MOSAIC 0" ++ nl) in
  let f := write f ("MULTIEXPOSURE 4" ++ nl) in
  let f := write f ("NREPEATSCAN   1" ++ nl) in
  let f := write f ("WAITNSECS   0" ++ nl) in
  let f := write f ("NEXPOSURES   " ++ str_int repetitions ++ nl) in
  let f := write f ("AVERAGEONTHEFLY   0" ++ nl) in
  let f := write f ("REFNEXPOSURES  " ++ str_int ref_repetitions ++ nl) in
  let f := write f ("REF4EVERYEXPOSURES   " ++ str_int repetitions ++ nl) in
  let f := write f ("REFABBA " ++ str_int (if abba_mode then 1 else 0) ++ nl) in
  let f := write f ("REFAVERAGEONTHEFLY 0" ++ nl) in
  let f := write f ("MOSAICUP   1" ++ nl) in
  let f := write f ("MOSAICDOWN   1" ++ nl) in
  let f := write f ("MOSAICLEFT   1" ++ nl) in
  let f := write f ("MOSAICRIGHT   1" ++ nl) in
  let f := write f ("MOSAICOVERLAP 0.20" ++ nl) in
  let f := write f ("MOSAICCENTRALTILE   1" ++ nl) in
  write f ("FILES" ++ nl).


(* ================================================================= *)
(** ** The two text sinks of a script *)

(** [dest] is the caller's file object, [scaninfo] the ScanInfo file the
    script opens next to it. *)
Record Sinks : Type := { dest : string; scaninfo : string }.

Definition dest_write (s : string) (io : Sinks) : Sinks :=
  {| dest := write (dest io) s; scaninfo := scaninfo io |}.

Definition scaninfo_write (s : string) (io : Sinks) : Sinks :=
  {| dest := dest io; scaninfo := write (scaninfo io) s |}.

(** What a call leaves behind: the content of [dest], the content of the
    ScanInfo file if it was opened, and the exception if one was raised. *)
Record Outcome : Type := {
  out_dest : string;
  out_scaninfo : option string;
  out_raised : option exn;
}.

(* ================================================================= *)
(** ** ssrl6_xanes_script *)

Module SSRL6.
Section Script.
Context {T : Type} `{PyNumber T} `{PyFormat T}.

(** Iteration identifiers: objects with [str()] whose [!=] is the negation
    of an equality, as for [str] and [int]; [iterations] is a sequence
    (it is indexed with [-1]).  Identifiers of any class are treated with
    [ssrl6_xanes_script_ne] below. *)
Context {ident : Type}.
Context (ident_eq_dec : forall a b : ident, {a = b} + {a <> b}).
Context (str : ident -> string).

(** The arguments of the call; [energies] is [edge.all_energies()]. *)
Context (energies : list T).
Context (zoneplate : Zoneplate.t T).
Context (positions : list (position T)).
Context (reference_position : position T).
Context (iterations : list ident).
Context (iteration_rest frame_rest : Z).
Context (binning : Z).
Context (exposure : T).
Context (repetitions ref_repetitions : Z).
Context (abba_mode : bool).

Definition ref_template (name : ident) (energy : T) (ctr total : Z) : string :=
  "ref_" ++ str name ++ "_" ++ fmt_071f energy ++ "_eV_"
    ++ fmt_0d 3 ctr ++ "of" ++ fmt_0d 3 total ++ ".xrm" ++ nl.

Definition sam_template (name : ident) (fov : Z) (energy : T)
    (ctr total : Z) : string :=
  str name ++ "_fov" ++ str_int fov ++ "_" ++ fmt_071f energy ++ "_eV_"
    ++ fmt_0d 3 ctr ++ "of" ++ fmt_0d 3 total ++ ".xrm" ++ nl.

Definition pos_template (p : position T) : string :=
  "moveto x " ++ fmt_2f (x p) ++ nl
    ++ "moveto y " ++ fmt_2f (y p) ++ nl
    ++ "moveto z " ++ fmt_2f (z p) ++ nl.

Definition exposure_str : string :=
  "setexp " ++ fmt_2f exposure ++ nl ++ "setbinning " ++ str_int binning ++ nl.

(** [for rep in range(0, ref_repetitions)]: the collect lines are appended
    to the pending text [ref_s], the file names go to ScanInfo at once. *)
Definition ref_rep_body (fs_name : ident) (E : T)
    (st : string * Sinks) (rep : Z) : string * Sinks :=
  let '(ref_s, io) := st in
  let xrmfile := ref_template fs_name E rep ref_repetitions in
  let ref_s := ref_s ++ "collect " ++ xrmfile in
  let io := scaninfo_write xrmfile io in
  (ref_s, io).

(** [for rep in range(0, repetitions)] of one sample position. *)
Definition sam_rep_body (fs_name : ident) (E : T) (pos_idx : Z)
    (io : Sinks) (rep : Z) : Sinks :=
  let xrmfile := sam_template fs_name pos_idx E rep repetitions in
  let io := dest_write ("collect " ++ xrmfile) io in
  let io := scaninfo_write xrmfile io in
  io.

(** [for idx, sam_pos in enumerate(pos_list)]. *)
Definition sample_body (fs_name : ident) (E : T) (ref_first : bool)
    (pos_list : list (position T)) (io : Sinks)
    (item : Z * position T) : Sinks :=
  let '(idx, sam_pos) := item in
  let pos_idx :=
    if ref_first then idx
    else Z.of_nat (List.length pos_list) - idx - 1 in
  let io := dest_write (";;;; Move to sample position " ++ str_int pos_idx ++ nl) io in
  let io := dest_write (pos_template sam_pos) io in
  let io := dest_write (";;;; Collect frames sample position " ++ str_int pos_idx ++ nl) io in
  let io := dest_write exposure_str io in
  fold_left (sam_rep_body fs_name E pos_idx) (range 0 repetitions) io.

(** [for E in edge.all_energies()]; the loop carries the flag [ref_first]. *)
Definition energy_body (fs_name : ident) (st : bool * Sinks) (E : T)
    : bool * Sinks :=
  let '(ref_first, io) := st in
  let io := dest_write (";;;; set the MONO and the ZP" ++ nl) io in
  let io := dest_write ("sete " ++ fmt_2f E ++ nl) io in
  let zp_pos := Zoneplate.position zoneplate E in
  let io := dest_write ("moveto zpx " ++ fmt_2f (x zp_pos) ++ nl) io in
  let io := dest_write ("moveto zpy " ++ fmt_2f (y zp_pos) ++ nl) io in
  let io := dest_write ("moveto zpz " ++ fmt_2f (z zp_pos) ++ nl) io in
  let ref_s := ";;;; Move to reference position" ++ nl in
  let ref_s := ref_s ++ pos_template reference_position in
  let ref_s :=
    if truthy frame_rest && ref_first
    then ref_s ++ "wait " ++ str_int frame_rest ++ nl
    else ref_s in
  let ref_s := ref_s ++ ";;;; Collect reference frames" ++ nl in
  let ref_s := ref_s ++ exposure_str in
  let '(ref_s, io) :=
    fold_left (ref_rep_body fs_name E) (range 0 ref_repetitions) (ref_s, io) in
  let ref_s :=
    if truthy frame_rest && negb ref_first
    then ref_s ++ "wait " ++ str_int frame_rest ++ nl
    else ref_s in
  let io := if ref_first then dest_write ref_s io else io in
  let pos_list := if ref_first then positions else rev positions in
  let io :=
    fold_left (sample_body fs_name E ref_first pos_list)
              (enumerate pos_list) io in
  let io := if negb ref_first then dest_write ref_s io else io in
  let ref_first := negb (ref_first && abba_mode) in
  (ref_first, io).

(** [for fs_name in iterations]; the loop variable stays bound afterwards,
    so the loop carries its last value. *)
Definition iteration_body (st : option ident * Sinks) (fs_name : ident)
    : option ident * Sinks :=
  let '(_, io) := st in
  let ref_first := true in
  let io := dest_write (";; 2D XANES ;;" ++ nl) io in
  let '(_, io) := fold_left (energy_body fs_name) energies (ref_first, io) in
  let io := dest_write (";;;; Park at reference position" ++ nl) io in
  let io := dest_write (pos_template reference_position) io in
  (Some fs_name, io).

(** The statement after the loop:
    [if iteration_rest and fs_name != iterations[-1]: dest.write(...)]. *)
Definition iteration_rest_check (fs_name : option ident) (io : Sinks)
    : exc Sinks :=
  if truthy iteration_rest then
    match fs_name with
    | None => Raise (NameError "fs_name")
    | Some fs_name =>
        last <- last_item iterations ;;
        if ident_eq_dec fs_name last then Return io
        else Return (dest_write ("wait " ++ str_int iteration_rest ++ nl) io)
    end
  else Return io.

(** The whole call, started on a [dest] that already holds [dest0].  The
    ScanInfo file is created empty next to [dest], under the name of [dest]
    prefixed with [ScanInfo_]; only its content is followed here. *)
Definition ssrl6_xanes_script (dest0 : string) : Outcome :=
  if truthy frame_rest && abba_mode then
    {| out_dest := dest0; out_scaninfo := None;
       out_raised :=
         Some (ValueError "Cannot use `frame_rest` and `abba_mode` together.") |}
  else
    let io := {| dest := dest0; scaninfo := EmptyString |} in
    let io :=
      {| dest := dest io;
         scaninfo := write_scaninfo_header (scaninfo io) abba_mode
                       repetitions ref_repetitions |} in
    let '(fs_name, io) := fold_left iteration_body iterations (None, io) in
    match iteration_rest_check fs_name io with
    | Return io =>
        {| out_dest := dest io; out_scaninfo := Some (scaninfo io);
           out_raised := None |}
    | Raise e =>
        {| out_dest := dest io; out_scaninfo := Some (scaninfo io);
           out_raised := Some e |}
    end.

(** *** Identifiers of any class

    The statement after the loop and the call once more, for a sequence of
    identifiers whose [!=] is whatever their class defines: [ne a b] is the
    truth value of [a != b], which need not be the negation of an equality
    (a NaN differs from itself).  For [str] and [int] identifiers the call
    is the one above. *)
Definition iteration_rest_check_ne (ne : ident -> ident -> bool)
    (fs_name : option ident) (io : Sinks) : exc Sinks :=
  if truthy iteration_rest then
    match fs_name with
    | None => Raise (NameError "fs_name")
    | Some fs_name =>
        last <- last_item iterations ;;
        if ne fs_name last
        then Return (dest_write ("wait " ++ str_int iteration_rest ++ nl) io)
        else Return io
    end
  else Return io.

Definition ssrl6_xanes_script_ne (ne : ident -> ident -> bool)
    (dest0 : string) : Outcome :=
  if truthy frame_rest && abba_mode then
    {| out_dest := dest0; out_scaninfo := None;
       out_raised :=
         Some (ValueError "Cannot use `frame_rest` and `abba_mode` together.") |}
  else
    let io := {| dest := dest0; scaninfo := EmptyString |} in
    let io :=
      {| dest := dest io;
         scaninfo := write_scaninfo_header (scaninfo io) abba_mode
                       repetitions ref_repetitions |} in
    let '(fs_name, io) := fold_left iteration_body iterations (None, io) in
    match iteration_rest_check_ne ne fs_name io with
    | Return io =>
        {| out_dest := dest io; out_scaninfo := Some (scaninfo io);
           out_raised := None |}
    | Raise e =>
        {| out_dest := dest io; out_scaninfo := Some (scaninfo io);
           out_raised := Some e |}
    end.

(** *** Closed forms of the emitted text

    The loops above, unrolled: what one energy step, one iteration and the
    whole call append to each sink.  The statements about the script are
    equations between the loops and these texts. *)

(** Both sinks extended at once. *)
Definition emit (script info : string) (io : Sinks) : Sinks :=
  {| dest := dest io ++ script; scaninfo := scaninfo io ++ info |}.

(** File names of the reference frames of one energy step. *)
Definition ref_files (fs_name : ident) (E : T) : list string :=
  map (fun rep => ref_template fs_name E rep ref_repetitions)
      (range 0 ref_repetitions).

(** File names of the frames of one sample position labelled [fov]. *)
Definition sam_files (fs_name : ident) (E : T) (fov : Z) : list string :=
  map (fun rep => sam_template fs_name fov E rep repetitions)
      (range 0 repetitions).

Definition collect_lines (files : list string) : string :=
  join (map (fun xrmfile => "collect " ++ xrmfile) files).

Definition wait_line (seconds : Z) : string :=
  "wait " ++ str_int seconds ++ nl.

(** The reference block, as built when the flag is [ref_first]. *)
Definition reference_block (fs_name : ident) (E : T) (ref_first : bool)
    : string :=
  ";;;; Move to reference position" ++ nl
    ++ pos_template reference_position
    ++ (if truthy frame_rest && ref_first then wait_line frame_rest else "")
    ++ ";;;; Collect reference frames" ++ nl
    ++ exposure_str
    ++ collect_lines (ref_files fs_name E)
    ++ (if truthy frame_rest && negb ref_first then wait_line frame_rest else "").

(** The block of one sample position, labelled [fov]. *)
Definition sample_block (fs_name : ident) (E : T) (item : Z * position T)
    : string :=
  ";;;; Move to sample position " ++ str_int (fst item) ++ nl
    ++ pos_template (snd item)
    ++ ";;;; Collect frames sample position " ++ str_int (fst item) ++ nl
    ++ exposure_str
    ++ collect_lines (sam_files fs_name E (fst item)).

(** The label a visit receives in the sample loop: its slot when going
    forwards, its slot counted from the far end when going backwards. *)
Definition relabel (ref_first : bool) (pos_list : list (position T))
    (item : Z * position T) : Z * position T :=
  ((if ref_first then fst item
    else Z.of_nat (List.length pos_list) - fst item - 1), snd item).

(** The sample positions of one energy step in visiting order, each paired
    with its index in [positions]. *)
Definition visits (ref_first : bool) : list (Z * position T) :=
  if ref_first then enumerate positions else rev (enumerate positions).

Definition sample_blocks (fs_name : ident) (E : T) (ref_first : bool)
    : string :=
  join (map (sample_block fs_name E) (visits ref_first)).

Definition energy_header (E : T) : string :=
  ";;;; set the MONO and the ZP" ++ nl
    ++ "sete " ++ fmt_2f E ++ nl
    ++ "moveto zpx " ++ fmt_2f (x (Zoneplate.position zoneplate E)) ++ nl
    ++ "moveto zpy " ++ fmt_2f (y (Zoneplate.position zoneplate E)) ++ nl
    ++ "moveto zpz " ++ fmt_2f (z (Zoneplate.position zoneplate E)) ++ nl.

(** What one energy step appends to the script when the reference block is
    placed before ([before = true]) or after the sample blocks. *)
Definition step_script (fs_name : ident) (E : T) (before : bool) : string :=
  energy_header E
    ++ (if before
        then reference_block fs_name E true ++ sample_blocks fs_name E true
        else sample_blocks fs_name E false ++ reference_block fs_name E false).

(** What one energy step appends to ScanInfo. *)
Definition step_scaninfo (fs_name : ident) (E : T) (ref_first : bool)
    : string :=
  join (ref_files fs_name E)
    ++ join (map (fun item => join (sam_files fs_name E (fst item)))
                 (visits ref_first)).

(** The alternation rule: where the reference block of the [k]-th energy
    step of an iteration goes (counting from 0). *)
Definition ref_before (k : nat) : bool :=
  if abba_mode then Nat.even k else true.

(** [enumerate] starting at [k], with natural indices. *)
Definition indexed {A} (k : nat) (l : list A) : list (nat * A) :=
  combine (seq k (List.length l)) l.

Definition park : string :=
  ";;;; Park at reference position" ++ nl ++ pos_template reference_position.

Definition iteration_script (fs_name : ident) : string :=
  ";; 2D XANES ;;" ++ nl
    ++ join (map (fun kE => step_script fs_name (snd kE) (ref_before (fst kE)))
                 (indexed 0 energies))
    ++ park.

Definition iteration_scaninfo (fs_name : ident) : string :=
  join (map (fun kE => step_scaninfo fs_name (snd kE) (ref_before (fst kE)))
            (indexed 0 energies)).

(** *** The file names, in the order of each artifact *)

(** The templates without their line terminator. *)
Definition ref_name (name : ident) (energy : T) (ctr total : Z) : string :=
  "ref_" ++ str name ++ "_" ++ fmt_071f energy ++ "_eV_"
    ++ fmt_0d 3 ctr ++ "of" ++ fmt_0d 3 total ++ ".xrm".

Definition sam_name (name : ident) (fov : Z) (energy : T)
    (ctr total : Z) : string :=
  str name ++ "_fov" ++ str_int fov ++ "_" ++ fmt_071f energy ++ "_eV_"
    ++ fmt_0d 3 ctr ++ "of" ++ fmt_0d 3 total ++ ".xrm".

Definition ref_names (fs_name : ident) (E : T) : list string :=
  map (fun rep => ref_name fs_name E rep ref_repetitions)
      (range 0 ref_repetitions).

Definition sam_names (fs_name : ident) (E : T) (ref_first : bool)
    : list string :=
  flat_map (fun item =>
              map (fun rep => sam_name fs_name (fst item) E rep repetitions)
                  (range 0 repetitions))
           (visits ref_first).

(** The frames of one energy step in the order the script collects them. *)
Definition step_collected (fs_name : ident) (E : T) (ref_first : bool)
    : list string :=
  if ref_first
  then (ref_names fs_name E ++ sam_names fs_name E true)%list
  else (sam_names fs_name E false ++ ref_names fs_name E)%list.

(** The frames of one energy step in the order ScanInfo lists them. *)
Definition step_listed (fs_name : ident) (E : T) (ref_first : bool)
    : list string :=
  (ref_names fs_name E ++ sam_names fs_name E ref_first)%list.

Definition script_collected : list string :=
  flat_map (fun fs_name =>
              flat_map (fun kE => step_collected fs_name (snd kE)
                                    (ref_before (fst kE)))
                       (indexed 0 energies))
           iterations.

Definition script_listed : list string :=
  flat_map (fun fs_name =>
              flat_map (fun kE => step_listed fs_name (snd kE)
                                    (ref_before (fst kE)))
                       (indexed 0 energies))
           iterations.

End Script.
End SSRL6.

(* ================================================================= *)
(** ** Reading the two artifacts back *)

(** The file name a script line collects, if it is a [collect] line. *)
Definition collected_by (line : string) : list string :=
  match strip_prefix "collect " line with
  | Some name => [name]
  | None => []
  end.

(** The file names of the [collect] lines of a script, top to bottom. *)
Definition collect_filenames (script : string) : list string :=
  flat_map collected_by (lines script).

(** What follows [prefix] on a line that starts with it. *)
Definition taken_by (prefix line : string) : list string :=
  match strip_prefix prefix line with
  | Some rest => [rest]
  | None => []
  end.

(** The energies a script sets, as printed on its [sete] lines, top to
    bottom. *)
Definition energies_set (script : string) : list string :=
  flat_map (taken_by "sete ") (lines script).

(** Reading a text line by line with [f]: the text is made of whole lines,
    which contribute [ns] whatever follows. *)
Definition reads (f : string -> list string) (text : string)
    (ns : list string) : Prop :=
  forall rest,
    flat_map f (lines (text ++ rest)) = (ns ++ flat_map f (lines rest))%list.

Fixpoint after_marker (marker : string) (ls : list string) : list string :=
  match ls with
  | [] => []
  | l :: ls' => if String.eqb l marker then ls' else after_marker marker ls'
  end.

Fixpoint before_marker (marker : string) (ls : list string) : list string :=
  match ls with
  | [] => []
  | l :: ls' => if String.eqb l marker then [] else l :: before_marker marker ls'
  end.

(** The file names listed in a ScanInfo file: the lines below [FILES]. *)
Definition scaninfo_filenames (info : string) : list string :=
  after_marker "FILES" (lines info).

(** The header lines of a ScanInfo file: the lines above [FILES]. *)
Definition scaninfo_header (info : string) : list string :=
  before_marker "FILES" (lines info).

(** The header of a ScanInfo file as the format describes it, line by
    line. *)
Definition scaninfo_header_lines (abba_mode : bool)
    (repetitions ref_repetitions : Z) : list string :=
  [ "VERSION 1";
    "ENERGY 1";
    "TOMO 0";
    "MOSAIC 0";
    "MULTIEXPOSURE 4";
    "NREPEATSCAN   1";
    "WAITNSECS   0";
    "NEXPOSURES   " ++ str_int repetitions;
    "AVERAGEONTHEFLY   0";
    "REFNEXPOSURES  " ++ str_int ref_repetitions;
    "REF4EVERYEXPOSURES   " ++ str_int repetitions;
    if abba_mode then "REFABBA 1" else "REFABBA 0";
    "REFAVERAGEONTHEFLY 0";
    "MOSAICUP   1";
    "MOSAICDOWN   1";
    "MOSAICLEFT   1";
    "MOSAICRIGHT   1";
    "MOSAICOVERLAP 0.20";
    "MOSAICCENTRALTILE   1" ].

Definition scaninfo_header_keys : list string :=
  [ "VERSION"; "ENERGY"; "TOMO"; "MOSAIC"; "MULTIEXPOSURE"; "NREPEATSCAN";
    "WAITNSECS"; "NEXPOSURES"; "AVERAGEONTHEFLY"; "REFNEXPOSURES";
    "REF4EVERYEXPOSURES"; "REFABBA"; "REFAVERAGEONTHEFLY"; "MOSAICUP";
    "MOSAICDOWN"; "MOSAICLEFT"; "MOSAICRIGHT"; "MOSAICOVERLAP";
    "MOSAICCENTRALTILE" ].

(** A text made of the given lines. *)
Definition unlines (ls : list string) : string :=
  join (map (fun l => l ++ nl) ls).

(** The key of a header line: its text up to the first blank. *)
Fixpoint key_of (line : string) : string :=
  match line with
  | EmptyString => EmptyString
  | String c s => if Ascii.eqb c " " then EmptyString else String c (key_of s)
  end.


(* ================================================================= *)
(** ** sector8_xanes_script *)

Module Sector8.
Section Script.
Context {T : Type} `{PyNumber T} `{PyFormat T} `{NumPy T}.

(** [str(float(energy))], the shortest decimal text that reads back as the
    same float. *)
Context (str_float : T -> string).

Context {ident : Type}.
Context (str : ident -> string).

Context (energies : list T).
Context (zoneplate : Zoneplate.t T).
Context (detector : Detector.t T).
Context (sample_positions : list (position T)).
Context (names : list string).
Context (iterations : list ident).
Context (binning : Z).
Context (exposure : Z).
Context (abba_mode : bool).

(** The two-field format [{}_{}] applied to the parts of
    [str(float(energy)).split('.')]. *)
Definition energy_str (energy : T) : exc string :=
  match split "." (str_float energy) with
  | a :: b :: _ => Return (a ++ "_" ++ b)
  | _ => Raise IndexError
  end.

(** [for idx in position_indexes]. *)
Definition s8_position_body (iteration : ident) (energy : T)
    (dest : string) (idx : Z) : string * option exn :=
  match getitem sample_positions idx with
  | Raise e => (dest, Some e)
  | Return position =>
  match getitem names idx with
  | Raise e => (dest, Some e)
  | Return name =>
      let dest := write dest ("moveto x " ++ fmt_2f (x position) ++ nl) in
      let dest := write dest ("moveto y " ++ fmt_2f (y position) ++ nl) in
      let dest := write dest ("moveto z " ++ fmt_2f (z position) ++ nl) in
      match energy_str energy with
      | Raise e => (dest, Some e)
      | Return energy_str =>
          let filename :=
            name ++ "_xanes" ++ str iteration ++ "_" ++ energy_str ++ "eV.xrm" in
          (write dest ("collect " ++ filename ++ nl), None)
      end
  end
  end.

(** [for energy in energies]; the loop carries [reverse_positions]. *)
Definition s8_energy_body (iteration : ident) (st : bool * string)
    (energy : T) : (bool * string) * option exn :=
  let '(reverse_positions, dest) := st in
  let dest := write dest ("moveto energy " ++ fmt_2f energy ++ nl) in
  let dest :=
    write dest ("moveto zpz " ++ fmt_2f (z (Zoneplate.position zoneplate energy)) ++ nl) in
  let dest :=
    write dest ("moveto detz " ++ fmt_2f (z (Detector.position detector energy)) ++ nl) in
  let position_indexes :=
    if reverse_positions && abba_mode
    then range_step (Z.of_nat (List.length sample_positions) - 1) (-1) (-1)
    else range 0 (Z.of_nat (List.length sample_positions)) in
  let reverse_positions := negb reverse_positions in
  let '(dest, e) :=
    for_each (s8_position_body iteration energy) position_indexes dest in
  ((reverse_positions, dest), e).

(** The approach to the first energy from below. *)
Definition s8_warmup (starting_energy : T) (dest : string) : string :=
  fold_left
    (fun dest energy => write dest ("moveto energy " ++ fmt_2f energy ++ nl))
    (arange (sub starting_energy (of_int 100)) starting_energy (of_int 2))
    dest.

(** [for iteration in iterations]. *)
Definition s8_iteration_body (starting_energy : T) (dest : string)
    (iteration : ident) : string * option exn :=
  let reverse_positions := false in
  let dest := s8_warmup starting_energy dest in
  let '((_, dest), e) :=
    for_each (s8_energy_body iteration) energies (reverse_positions, dest) in
  (dest, e).

Definition sector8_xanes_script (dest0 : string) : string * option exn :=
  let dest := write dest0 ("setbinning " ++ str_int binning ++ nl) in
  let dest := write dest ("setexp " ++ str_int exposure ++ nl) in
  match getitem energies 0 with
  | Raise e => (dest, Some e)
  | Return starting_energy =>
      for_each (s8_iteration_body starting_energy) iterations dest
  end.

(** *** Closed form of the warm-up *)

(** Fifty energies, two apart, the last one two below the first energy of
    the scan. *)
Definition warmup_energies (starting_energy : T) : list T :=
  map (fun k => add (sub starting_energy (of_int 100))
                    (mul (of_int (Z.of_nat k)) (of_int 2)))
      (seq 0 50).

Definition warmup_text (starting_energy : T) : string :=
  join (map (fun energy => "moveto energy " ++ fmt_2f energy ++ nl)
            (warmup_energies starting_energy)).

(** *** Closed form of the script *)

(** The sample positions with the names at the same indexes. *)
Definition stops : list (position T * string) :=
  combine sample_positions names.

(** The order in which the [k]-th energy of an iteration visits them:
    backwards at every second energy under [abba_mode]. *)
Definition visits (k : nat) : list (position T * string) :=
  if Nat.odd k && abba_mode then rev stops else stops.

(** The energy as it appears in a file name. *)
Definition energy_label (energy : T) : string :=
  match energy_str energy with
  | Return label => label
  | Raise _ => ""
  end.

Definition frame_name (iteration : ident) (energy : T) (name : string)
    : string :=
  name ++ "_xanes" ++ str iteration ++ "_" ++ energy_label energy ++ "eV.xrm".

(** The four lines of one frame. *)
Definition frame_text (iteration : ident) (energy : T)
    (stop : position T * string) : string :=
  "moveto x " ++ fmt_2f (x (fst stop)) ++ nl
  ++ "moveto y " ++ fmt_2f (y (fst stop)) ++ nl
  ++ "moveto z " ++ fmt_2f (z (fst stop)) ++ nl
  ++ "collect " ++ frame_name iteration energy (snd stop) ++ nl.

(** The three moves to the [k]-th energy, then its frames. *)
Definition energy_text (iteration : ident) (kE : nat * T) : string :=
  "moveto energy " ++ fmt_2f (snd kE) ++ nl
  ++ "moveto zpz "
  ++ fmt_2f (z (Zoneplate.position zoneplate (snd kE))) ++ nl
  ++ "moveto detz "
  ++ fmt_2f (z (Detector.position detector (snd kE))) ++ nl
  ++ join (map (frame_text iteration (snd kE)) (visits (fst kE))).

(** The approach from below, as [numpy.arange] yields it. *)
Definition approach_text (starting_energy : T) : string :=
  join (map (fun energy => "moveto energy " ++ fmt_2f energy ++ nl)
            (arange (sub starting_energy (of_int 100)) starting_energy
                    (of_int 2))).

Definition iteration_text (starting_energy : T) (iteration : ident)
    : string :=
  approach_text starting_energy
  ++ join (map (energy_text iteration)
               (combine (seq 0 (List.length energies)) energies)).

Definition script_text : string :=
  "setbinning " ++ str_int binning ++ nl
  ++ "setexp " ++ str_int exposure ++ nl
  ++ match energies with
     | [] => ""
     | starting_energy :: _ =>
         join (map (iteration_text starting_energy) iterations)
     end.

(** The frames of the script, in the order of their [collect] lines. *)
Definition frames : list string :=
  flat_map
    (fun iteration =>
       flat_map
         (fun kE =>
            map (fun stop => frame_name iteration (snd kE) (snd stop))
                (visits (fst kE)))
         (combine (seq 0 (List.length energies)) energies))
    iterations.

(** [str(float(energy))] has a decimal point. *)
Definition dotted (energy : T) : bool := has_dot (str_float energy).

(** The calls that run to the end: there is a first energy, and, when
    there is a frame to collect, every position has a name and every
    energy prints with a decimal point. *)
Definition completes : bool :=
  match energies with
  | [] => false
  | _ :: _ =>
      match iterations, sample_positions with
      | [], _ => true
      | _, [] => true
      | _ :: _, _ :: _ =>
          (List.length sample_positions <=? List.length names)%nat
          && forallb dotted energies
      end
  end.

End Script.
End Sector8.

(* ================================================================= *)
(** ** Concrete calls *)

(** A zoneplate calibrated by one point and a step, all in [int]s. *)
Definition scenario_zoneplate : Zoneplate.t Z :=
  Zoneplate.make (ZoneplatePoint.make 0 0 3000 8000) (Position 0 0 2).

(** The scenario of the specification: two energies, two sample positions,
    one iteration named [sample1], two frames per position and one per
    reference; the script starts on an empty [dest]. *)
Definition scenario (iterations : list string)
    (iteration_rest frame_rest : Z) (abba_mode : bool) : Outcome :=
  SSRL6.ssrl6_xanes_script string_dec (fun name => name)
    [8950; 8980] scenario_zoneplate
    [Position 0 0 0; Position 1 1 0] (Position 5 5 0)
    iterations iteration_rest frame_rest 2 1 2 1 abba_mode "".

(** A call of the second script: two energies that print as [8950.0] and
    [8980.0], two named sample positions and the default single iteration
    [0]. *)
Definition sector8_scenario (abba_mode : bool) : string * option exn :=
  Sector8.sector8_xanes_script (fun n : Z => str_int n ++ ".0") str_int
    [8950; 8980] scenario_zoneplate scenario_zoneplate
    [Position 0 0 0; Position 1 1 0] ["a"; "b"] [0] 1 30 abba_mode "".

(** The scenario of the specification for identifiers compared by [ne]. *)
Definition scenario_ne (ne : string -> string -> bool)
    (iterations : list string) (iteration_rest frame_rest : Z)
    (abba_mode : bool) : Outcome :=
  SSRL6.ssrl6_xanes_script_ne (fun name => name)
    [8950; 8980] scenario_zoneplate
    [Position 0 0 0; Position 1 1 0] (Position 5 5 0)
    iterations iteration_rest frame_rest 2 1 2 1 abba_mode ne "".

(** Two calibration points in [float]s, 49 eV apart. *)
Definition float_start : ZoneplatePoint.t float :=
  ZoneplatePoint.make (of_int 0) (of_int 0) (of_int 0) (of_int 8000).

Definition float_end : ZoneplatePoint.t float :=
  ZoneplatePoint.make (of_int 1) (of_int 1) (of_int 1) (of_int 8049).

(** A second point at the energy of the first. *)
Definition float_same_energy : ZoneplatePoint.t float :=
  ZoneplatePoint.make (of_int 1) (of_int 1) (of_int 1) (of_int 8000).

(** Two finite calibration points 3 eV apart whose x differ by sixteen
    orders of magnitude. *)
Definition float_far_start : ZoneplatePoint.t float :=
  ZoneplatePoint.make (of_int 10000000000000000) (of_int 0) (of_int 0)
                      (of_int 8000).

Definition float_far_end : ZoneplatePoint.t float :=
  ZoneplatePoint.make (of_int 1) (of_int 0) (of_int 0) (of_int 8003).

(** The same two points as exact rationals. *)
Definition Qc_start : ZoneplatePoint.t Qc :=
  ZoneplatePoint.make (of_int 0) (of_int 0) (of_int 0) (of_int 8000).

Definition Qc_end : ZoneplatePoint.t Qc :=
  ZoneplatePoint.make (of_int 1) (of_int 1) (of_int 1) (of_int 8049).

(* ================================================================= *)
(** * Properties *)

(** ** Texts and loops *)


Lemma append_assoc (a b c : string) : (a ++ b) ++ c = a ++ b ++ c.
Proof.
  induction a as [|ch a IH]; simpl; [reflexivity|].
  now rewrite IH.
Qed.

Lemma append_empty_r (a : string) : a ++ "" = a.
Proof.
  induction a as [|ch a IH]; simpl; [reflexivity|].
  now rewrite IH.
Qed.

Lemma append_empty_l (a : string) : "" ++ a = a.
Proof. reflexivity. Qed.

(** Texts are compared in right-nested form without empty pieces. *)
Create Rewrite HintDb text.
#[local] Hint Rewrite append_assoc append_empty_r append_empty_l : text.

Ltac text_eq := autorewrite with text; reflexivity.

(** Texts are compared as concatenations, never character by character. *)
#[local] Arguments append : simpl never.

(** Appending to a file in a loop. *)
Lemma fold_left_write {A} (f : A -> string) (l : list A) :
  forall dest,
    fold_left (fun dest a => write dest (f a)) l dest = dest ++ join (map f l).
Proof.
  induction l as [|a l IH]; intros dest; cbn [fold_left map join fold_right].
  - now rewrite append_empty_r.
  - rewrite IH. unfold write. now rewrite append_assoc.
Qed.

(** *** Lines *)

Lemma has_nl_app (a b : string) : has_nl (a ++ b) = has_nl a || has_nl b.
Proof.
  induction a as [|c a IH]; [reflexivity|].
  change (String c a ++ b) with (String c (a ++ b)).
  cbn [has_nl]. now rewrite IH, orb_assoc.
Qed.

Lemma lines_line (l rest : string) :
  has_nl l = false -> lines (l ++ nl ++ rest) = l :: lines rest.
Proof.
  induction l as [|c l IH]; intros Hl.
  - reflexivity.
  - cbn [has_nl] in Hl. apply orb_false_elim in Hl. destruct Hl as [Hc Hl].
    change (String c l ++ nl ++ rest) with (String c (l ++ nl ++ rest)).
    cbn [lines]. now rewrite Hc, (IH Hl).
Qed.

Lemma unlines_cons (l : string) (ls : list string) :
  unlines (l :: ls) = l ++ nl ++ unlines ls.
Proof.
  unfold unlines, join. cbn [map fold_right]. now rewrite append_assoc.
Qed.

Lemma lines_unlines (ls : list string) :
  Forall (fun l => has_nl l = false) ls -> lines (unlines ls) = ls.
Proof.
  induction 1 as [|l ls Hl _ IH]; [reflexivity|].
  now rewrite unlines_cons, lines_line, IH.
Qed.

Lemma string_of_uint_no_nl (d : Decimal.uint) :
  has_nl (NilEmpty.string_of_uint d) = false.
Proof.
  induction d; cbn [NilEmpty.string_of_uint has_nl]; try reflexivity;
    rewrite IHd; reflexivity.
Qed.

Lemma str_int_no_nl (n : Z) : has_nl (str_int n) = false.
Proof.
  unfold str_int, NilZero.string_of_int.
  destruct (Z.to_int n) as [d|d].
  - destruct d; try apply (string_of_uint_no_nl (_ _)). reflexivity.
  - assert (Hd : has_nl (NilZero.string_of_uint d) = false)
      by (destruct d; try apply (string_of_uint_no_nl (_ _)); reflexivity).
    cbn [has_nl]. now rewrite Hd.
Qed.

(** [range] and [enumerate], one element at a time. *)
Lemma range_0_succ (n : nat) :
  range 0 (Z.of_nat (S n)) = (range 0 (Z.of_nat n) ++ [Z.of_nat n])%list.
Proof.
  unfold range. rewrite !Z.sub_0_r, !Nat2Z.id.
  rewrite seq_S, map_app. reflexivity.
Qed.

Lemma range_length (n : nat) : List.length (range 0 (Z.of_nat n)) = n.
Proof.
  unfold range. now rewrite length_map, length_seq, Z.sub_0_r, Nat2Z.id.
Qed.

Lemma combine_app_eq {A B} (l1 l2 : list A) (m1 m2 : list B) :
  List.length l1 = List.length m1 ->
  combine (l1 ++ l2)%list (m1 ++ m2)%list
  = (combine l1 m1 ++ combine l2 m2)%list.
Proof.
  revert m1. induction l1 as [|a l1 IH]; intros [|b m1] Hlen;
    simpl in *; try discriminate; [reflexivity|].
  f_equal. apply IH. congruence.
Qed.

Lemma enumerate_snoc {A} (l : list A) (a : A) :
  enumerate (l ++ [a])%list
  = (enumerate l ++ [(Z.of_nat (List.length l), a)])%list.
Proof.
  unfold enumerate. rewrite length_app. simpl List.length.
  rewrite Nat.add_1_r, range_0_succ.
  rewrite combine_app_eq by apply range_length.
  reflexivity.
Qed.

Lemma enumerate_cons {A} (a : A) (l : list A) :
  enumerate (a :: l)
  = (0, a) :: map (fun item => (fst item + 1, snd item)) (enumerate l).
Proof.
  unfold enumerate, range. simpl List.length.
  rewrite !Z.sub_0_r, !Nat2Z.id. simpl. f_equal.
  rewrite <- seq_shift, map_map.
  generalize (seq 0 (List.length l)) as ks.
  induction l as [|b l IH]; intros [|k ks]; simpl; try reflexivity.
  f_equal; [|apply IH].
  f_equal. lia.
Qed.

Lemma enumerate_nth_error {A} (l : list A) (i : Z) (a : A) :
  In (i, a) (enumerate l) ->
  (0 <= i)%Z /\ nth_error l (Z.to_nat i) = Some a.
Proof.
  induction l as [|b l IH] using rev_ind; [intros []|].
  rewrite enumerate_snoc. intros Hin. apply in_app_or in Hin.
  destruct Hin as [Hin|[Heq|[]]].
  - destruct (IH Hin) as [Hpos Hnth]. split; [assumption|].
    rewrite nth_error_app1; [assumption|].
    apply nth_error_Some. congruence.
  - inversion Heq; subst. split; [lia|].
    rewrite Nat2Z.id, nth_error_app2 by lia.
    now rewrite Nat.sub_diag.
Qed.

Lemma enumerate_getitem {A} (l : list A) (i : Z) (a : A) :
  In (i, a) (enumerate l) -> getitem l i = Return a.
Proof.
  intros Hin. destruct (enumerate_nth_error l i a Hin) as [Hpos Hnth].
  unfold getitem.
  assert (Hneg : (i <? 0)%Z = false) by (apply Z.ltb_ge; lia).
  now rewrite Hneg, Hneg, Hnth.
Qed.

(** Visiting the reversed list with the index counted from the far end is
    visiting the original pairs backwards. *)
Lemma enumerate_rev_relabel {A} (l : list A) :
  map (fun item => (Z.of_nat (List.length l) - fst item - 1, snd item))
      (enumerate (rev l))
  = rev (enumerate l).
Proof.
  induction l as [|a l IH] using rev_ind; [reflexivity|].
  rewrite rev_app_distr. simpl rev at 1. simpl app.
  rewrite enumerate_cons, enumerate_snoc, rev_app_distr. simpl.
  rewrite length_app. simpl List.length. f_equal.
  - f_equal. lia.
  - rewrite <- IH, map_map. apply map_ext. intros [i p]. simpl.
    f_equal. lia.
Qed.

(** *** Reading whole lines *)

Lemma zeros_no_nl (k : nat) : has_nl (zeros k) = false.
Proof.
  induction k as [|k IH]; [reflexivity|]. cbn [zeros has_nl]. now rewrite IH.
Qed.

Lemma fmt_0d_no_nl (width : nat) (n : Z) : has_nl (fmt_0d width n) = false.
Proof.
  unfold fmt_0d, zfill. destruct (n <? 0)%Z;
    now rewrite ?has_nl_app, zeros_no_nl, str_int_no_nl.
Qed.

Lemma reads_nothing (f : string -> list string) : reads f "" [].
Proof. intros rest. reflexivity. Qed.

Lemma reads_app (f : string -> list string) (a b : string)
    (na nb : list string) :
  reads f a na -> reads f b nb -> reads f (a ++ b) (na ++ nb)%list.
Proof.
  intros Ha Hb rest. now rewrite append_assoc, Ha, Hb, app_assoc.
Qed.

Lemma reads_line (f : string -> list string) (l : string) :
  has_nl l = false -> reads f (l ++ nl) (f l).
Proof.
  intros Hl rest. rewrite append_assoc, lines_line by assumption.
  reflexivity.
Qed.

Lemma reads_join {A} (f : string -> list string) (g : A -> string)
    (h : A -> list string) (l : list A) :
  (forall a, reads f (g a) (h a)) ->
  reads f (join (map g l)) (flat_map h l).
Proof.
  intros Hg. induction l as [|a l IH].
  - apply reads_nothing.
  - cbn [map flat_map]. change (join (g a :: map g l)) with (g a ++ join (map g l)).
    now apply reads_app.
Qed.

Lemma reads_join_in {A} (f : string -> list string) (g : A -> string)
    (h : A -> list string) (l : list A) :
  (forall a, In a l -> reads f (g a) (h a)) ->
  reads f (join (map g l)) (flat_map h l).
Proof.
  induction l as [|a l IH]; intros Hg.
  - apply reads_nothing.
  - cbn [map flat_map]. change (join (g a :: map g l)) with (g a ++ join (map g l)).
    apply reads_app; [apply Hg; now left|].
    apply IH. intros b Hb. apply Hg. now right.
Qed.

Lemma reads_all (f : string -> list string) (text : string)
    (ns : list string) :
  reads f text ns -> flat_map f (lines text) = ns.
Proof.
  intros Hr. specialize (Hr ""). rewrite append_empty_r in Hr.
  rewrite Hr. cbn. apply app_nil_r.
Qed.

Lemma reads_line_as (f : string -> list string) (text l : string)
    (ns : list string) :
  text = l ++ nl -> has_nl l = false -> f l = ns -> reads f text ns.
Proof. intros -> Hl <-. now apply reads_line. Qed.

Lemma reads_app_as (f : string -> list string) (a b : string)
    (na nb ns : list string) :
  reads f a na -> reads f b nb -> (na ++ nb)%list = ns ->
  reads f (a ++ b) ns.
Proof. intros Ha Hb <-. now apply reads_app. Qed.

Lemma flat_map_singleton {A B} (g : A -> B) (l : list A) :
  flat_map (fun a => [g a]) l = map g l.
Proof.
  induction l as [|a l IH]; [reflexivity|]. cbn. now rewrite IH.
Qed.

Lemma flat_map_id_lines (ls : list string) :
  flat_map (fun l => [l]) ls = ls.
Proof.
  rewrite (flat_map_singleton (fun l => l)). apply map_id.
Qed.


Lemma reads_skip1 (f : string -> list string) (a rest : string)
    (ns : list string) :
  has_nl a = false -> f a = [] -> reads f rest ns ->
  reads f (a ++ nl ++ rest) ns.
Proof.
  intros Ha Hf Hrest. rewrite <- append_assoc.
  apply (reads_app_as f (a ++ nl) rest [] ns); [|assumption|reflexivity].
  now apply (reads_line_as f _ a).
Qed.

Lemma reads_skip2 (f : string -> list string) (a b rest : string)
    (ns : list string) :
  has_nl (a ++ b) = false -> f (a ++ b) = [] -> reads f rest ns ->
  reads f (a ++ b ++ nl ++ rest) ns.
Proof.
  intros Hab Hf Hrest. rewrite <- (append_assoc a b). now apply reads_skip1.
Qed.

Lemma reads_skip1_end (f : string -> list string) (a : string) :
  has_nl a = false -> f a = [] -> reads f (a ++ nl) [].
Proof. intros Ha Hf. now apply (reads_line_as f _ a). Qed.

Lemma reads_skip2_end (f : string -> list string) (a b : string) :
  has_nl (a ++ b) = false -> f (a ++ b) = [] -> reads f (a ++ b ++ nl) [].
Proof.
  intros Hab Hf. rewrite <- (append_assoc a b). now apply reads_skip1_end.
Qed.

Lemma reads_as (f : string -> list string) (text : string)
    (ns ns' : list string) :
  reads f text ns' -> ns' = ns -> reads f text ns.
Proof. now intros H <-. Qed.

Lemma flat_map_nothing {A B} (l : list A) :
  flat_map (fun _ : A => @nil B) l = [].
Proof. induction l as [|a l IH]; [reflexivity|exact IH]. Qed.

Lemma flat_map_length_const {A B} (f : A -> list B) (n : nat) (l : list A) :
  (forall a, List.length (f a) = n) ->
  List.length (flat_map f l) = (List.length l * n)%nat.
Proof.
  intros Hf. induction l as [|a l IH]; [reflexivity|].
  cbn [flat_map List.length]. rewrite length_app, Hf, IH. lia.
Qed.

Lemma flat_map_permutation {A B} (f g : A -> list B) (l : list A) :
  (forall a, Permutation (f a) (g a)) ->
  Permutation (flat_map f l) (flat_map g l).
Proof.
  intros Hfg. induction l as [|a l IH]; [constructor|].
  cbn [flat_map]. now apply Permutation_app.
Qed.

Lemma enumerate_length {A} (l : list A) :
  List.length (enumerate l) = List.length l.
Proof.
  unfold enumerate. rewrite length_combine, range_length. apply Nat.min_id.
Qed.

Lemma range_0_length (n : Z) : List.length (range 0 n) = Z.to_nat n.
Proof.
  unfold range. now rewrite length_map, length_seq, Z.sub_0_r.
Qed.

Create HintDb reads_db discriminated.
#[local] Hint Resolve reads_nothing : reads_db.

Lemma lines_unlines_app (ls : list string) (rest : string) :
  Forall (fun l => has_nl l = false) ls ->
  lines (unlines ls ++ rest) = (ls ++ lines rest)%list.
Proof.
  induction 1 as [|l ls Hl _ IH]; [reflexivity|].
  rewrite unlines_cons, !append_assoc, lines_line by assumption.
  cbn [app]. now rewrite IH.
Qed.

(* ================================================================= *)
(** ** write_scaninfo_header *)

Lemma write_scaninfo_header_text
    (f : string) (abba_mode : bool) (repetitions ref_repetitions : Z) :
  write_scaninfo_header f abba_mode repetitions ref_repetitions
  = f ++ unlines (scaninfo_header_lines abba_mode repetitions ref_repetitions
                    ++ ["FILES"])%list.
Proof.
  unfold write_scaninfo_header, write, unlines, scaninfo_header_lines.
  cbn [map app join fold_right].
  destruct abba_mode; text_eq.
Qed.

Lemma scaninfo_header_lines_no_nl
    (abba_mode : bool) (repetitions ref_repetitions : Z) :
  Forall (fun l => has_nl l = false)
         (scaninfo_header_lines abba_mode repetitions ref_repetitions
            ++ ["FILES"])%list.
Proof.
  unfold scaninfo_header_lines. cbn [app].
  repeat constructor; try reflexivity;
    try (rewrite has_nl_app, str_int_no_nl; reflexivity).
  now destruct abba_mode.
Qed.

(** No header line is the marker. *)
Lemma scaninfo_header_marker
    (abba_mode : bool) (repetitions ref_repetitions : Z)
    (below : list string) :
  before_marker "FILES"
    (scaninfo_header_lines abba_mode repetitions ref_repetitions
       ++ "FILES" :: below)%list
  = scaninfo_header_lines abba_mode repetitions ref_repetitions
  /\ after_marker "FILES"
       (scaninfo_header_lines abba_mode repetitions ref_repetitions
          ++ "FILES" :: below)%list
     = below.
Proof.
  unfold scaninfo_header_lines. now destruct abba_mode.
Qed.

(** C3 (amended).  The header is nineteen lines, one per key and in the
    order of the format, the [REFABBA] line reading [REFABBA 1] when
    [abba_mode] is truthy and [REFABBA 0] otherwise; the [FILES] marker is
    the twentieth line. *)
Theorem write_scaninfo_header_lines
    (f : string) (abba_mode : bool) (repetitions ref_repetitions : Z) :
  write_scaninfo_header f abba_mode repetitions ref_repetitions
  = f ++ unlines (scaninfo_header_lines abba_mode repetitions ref_repetitions
                    ++ ["FILES"])%list
  /\ lines (write_scaninfo_header "" abba_mode repetitions ref_repetitions)
     = (scaninfo_header_lines abba_mode repetitions ref_repetitions
          ++ ["FILES"])%list
  /\ scaninfo_header
       (write_scaninfo_header "" abba_mode repetitions ref_repetitions)
     = scaninfo_header_lines abba_mode repetitions ref_repetitions
  /\ List.length (scaninfo_header_lines abba_mode repetitions ref_repetitions)
     = 19%nat
  /\ map key_of (scaninfo_header_lines abba_mode repetitions ref_repetitions)
     = scaninfo_header_keys
  /\ nth_error (scaninfo_header_lines abba_mode repetitions ref_repetitions) 11
     = Some (if abba_mode then "REFABBA 1" else "REFABBA 0").
Proof.
  assert (Hlines :
    lines (write_scaninfo_header "" abba_mode repetitions ref_repetitions)
    = (scaninfo_header_lines abba_mode repetitions ref_repetitions
         ++ ["FILES"])%list).
  { rewrite write_scaninfo_header_text, append_empty_l.
    apply lines_unlines, scaninfo_header_lines_no_nl. }
  split; [apply write_scaninfo_header_text|]. split; [exact Hlines|].
  split; [|split; [reflexivity|split; [|reflexivity]]].
  - unfold scaninfo_header. rewrite Hlines.
    apply scaninfo_header_marker.
  - unfold scaninfo_header_lines, scaninfo_header_keys. now destruct abba_mode.
Qed.

(* ================================================================= *)
(** ** ssrl6_xanes_script *)

Section SSRL6_properties.
Context {T : Type} `{PyNumber T} `{PyFormat T}.
Context {ident : Type}.
Context (ident_eq_dec : forall a b : ident, {a = b} + {a <> b}).
Context (str : ident -> string).
Context (energies : list T).
Context (zoneplate : Zoneplate.t T).
Context (positions : list (position T)).
Context (reference_position : position T).
Context (iterations : list ident).
Context (iteration_rest frame_rest : Z).
Context (binning : Z).
Context (exposure : T).
Context (repetitions ref_repetitions : Z).
Context (abba_mode : bool).

(** The definitions of the script at the arguments of this call. *)
Local Abbreviation ref_template := (SSRL6.ref_template str).
Local Abbreviation sam_template := (SSRL6.sam_template str).
Local Abbreviation pos_template := SSRL6.pos_template.
Local Abbreviation exposure_str := (SSRL6.exposure_str binning exposure).
Local Abbreviation ref_rep_body := (SSRL6.ref_rep_body str ref_repetitions).
Local Abbreviation sam_rep_body := (SSRL6.sam_rep_body str repetitions).
Local Abbreviation sample_body :=
  (SSRL6.sample_body str binning exposure repetitions).
Local Abbreviation energy_body :=
  (SSRL6.energy_body str zoneplate positions reference_position frame_rest
     binning exposure repetitions ref_repetitions abba_mode).
Local Abbreviation iteration_body :=
  (SSRL6.iteration_body str energies zoneplate positions reference_position
     frame_rest binning exposure repetitions ref_repetitions abba_mode).
Local Abbreviation iteration_rest_check :=
  (SSRL6.iteration_rest_check ident_eq_dec iterations iteration_rest).
Local Abbreviation ssrl6_xanes_script :=
  (SSRL6.ssrl6_xanes_script ident_eq_dec str energies zoneplate positions
     reference_position iterations iteration_rest frame_rest binning exposure
     repetitions ref_repetitions abba_mode).
Local Abbreviation emit := SSRL6.emit.
Local Abbreviation collect_lines := SSRL6.collect_lines.
Local Abbreviation wait_line := SSRL6.wait_line.
Local Abbreviation ref_files := (SSRL6.ref_files str ref_repetitions).
Local Abbreviation sam_files := (SSRL6.sam_files str repetitions).
Local Abbreviation reference_block :=
  (SSRL6.reference_block str reference_position frame_rest binning exposure
     ref_repetitions).
Local Abbreviation sample_block :=
  (SSRL6.sample_block str binning exposure repetitions).
Local Abbreviation visits := (SSRL6.visits positions).
Local Abbreviation relabel := SSRL6.relabel.
Local Abbreviation sample_blocks :=
  (SSRL6.sample_blocks str positions binning exposure repetitions).
Local Abbreviation energy_header := (SSRL6.energy_header zoneplate).
Local Abbreviation step_script :=
  (SSRL6.step_script str zoneplate positions reference_position frame_rest
     binning exposure repetitions ref_repetitions).
Local Abbreviation step_scaninfo :=
  (SSRL6.step_scaninfo str positions repetitions ref_repetitions).
Local Abbreviation ref_before := (SSRL6.ref_before abba_mode).
Local Abbreviation park := (SSRL6.park reference_position).
Local Abbreviation iteration_script :=
  (SSRL6.iteration_script str energies zoneplate positions reference_position
     frame_rest binning exposure repetitions ref_repetitions abba_mode).
Local Abbreviation iteration_scaninfo :=
  (SSRL6.iteration_scaninfo str energies positions repetitions ref_repetitions
     abba_mode).

(** *** Writes as [emit] *)

Lemma emit_emit (d1 s1 d2 s2 : string) (io : Sinks) :
  emit d2 s2 (emit d1 s1 io) = emit (d1 ++ d2) (s1 ++ s2) io.
Proof.
  unfold SSRL6.emit. simpl. now rewrite !append_assoc.
Qed.

Lemma emit_nothing (io : Sinks) : emit "" "" io = io.
Proof.
  destruct io as [d s]. unfold SSRL6.emit. simpl.
  now rewrite !append_empty_r.
Qed.

Lemma dest_write_emit (s : string) (io : Sinks) :
  dest_write s io = emit s "" io.
Proof.
  unfold dest_write, SSRL6.emit, write. now rewrite append_empty_r.
Qed.

Lemma scaninfo_write_emit (s : string) (io : Sinks) :
  scaninfo_write s io = emit "" s io.
Proof.
  unfold scaninfo_write, SSRL6.emit, write. now rewrite append_empty_r.
Qed.

(** A loop whose body only appends. *)
Lemma fold_left_emit {A} (body : Sinks -> A -> Sinks) (f g : A -> string) :
  (forall io a, body io a = emit (f a) (g a) io) ->
  forall l io,
    fold_left body l io = emit (join (map f l)) (join (map g l)) io.
Proof.
  intros Hbody l. induction l as [|a l IH]; intros io; simpl.
  - now rewrite emit_nothing.
  - now rewrite IH, Hbody, emit_emit.
Qed.

(** *** The three inner loops *)

Lemma ref_rep_loop (fs_name : ident) (E : T) (reps : list Z) :
  forall ref_s io,
    fold_left (ref_rep_body fs_name E) reps (ref_s, io)
    = (ref_s ++ collect_lines
                  (map (fun rep => ref_template fs_name E rep ref_repetitions) reps),
       emit "" (join (map (fun rep => ref_template fs_name E rep ref_repetitions)
                          reps)) io).
Proof.
  induction reps as [|rep reps IH]; intros ref_s io; simpl.
  - now rewrite append_empty_r, emit_nothing.
  - rewrite IH. unfold SSRL6.collect_lines. simpl.
    rewrite scaninfo_write_emit, emit_emit, !append_assoc. reflexivity.
Qed.

Lemma sam_rep_loop (fs_name : ident) (E : T) (pos_idx : Z) (io : Sinks) :
  fold_left (sam_rep_body fs_name E pos_idx) (range 0 repetitions) io
  = emit (collect_lines (sam_files fs_name E pos_idx))
         (join (sam_files fs_name E pos_idx)) io.
Proof.
  unfold SSRL6.collect_lines, SSRL6.sam_files. rewrite map_map.
  apply fold_left_emit with
    (f := fun rep => "collect " ++ sam_template fs_name pos_idx E rep repetitions)
    (g := fun rep => sam_template fs_name pos_idx E rep repetitions).
  intros io' rep. unfold SSRL6.sam_rep_body.
  now rewrite dest_write_emit, scaninfo_write_emit, emit_emit, append_empty_r.
Qed.

Lemma sample_loop (fs_name : ident) (E : T) (ref_first : bool)
    (pos_list : list (position T)) (items : list (Z * position T))
    (io : Sinks) :
  fold_left (sample_body fs_name E ref_first pos_list) items io
  = emit (join (map (sample_block fs_name E)
                    (map (relabel ref_first pos_list) items)))
         (join (map (fun item => join (sam_files fs_name E (fst item)))
                    (map (relabel ref_first pos_list) items)))
         io.
Proof.
  rewrite !map_map.
  apply fold_left_emit with
    (f := fun item => sample_block fs_name E (relabel ref_first pos_list item))
    (g := fun item =>
            join (sam_files fs_name E (fst (relabel ref_first pos_list item)))).
  intros io' [idx sam_pos]. unfold SSRL6.sample_body.
  rewrite sam_rep_loop, !dest_write_emit, !emit_emit.
  unfold SSRL6.sample_block, SSRL6.relabel. simpl fst. simpl snd.
  rewrite !append_assoc. reflexivity.
Qed.

Lemma relabel_visits (ref_first : bool) :
  map (relabel ref_first (if ref_first then positions else rev positions))
      (enumerate (if ref_first then positions else rev positions))
  = visits ref_first.
Proof.
  unfold SSRL6.visits, SSRL6.relabel. destruct ref_first.
  - rewrite <- (map_id (enumerate positions)) at 2.
    apply map_ext. now intros [i p].
  - rewrite length_rev. apply enumerate_rev_relabel.
Qed.

(** *** One energy step *)

Lemma energy_step (fs_name : ident) (E : T) (ref_first : bool) (io : Sinks) :
  energy_body fs_name (ref_first, io) E
  = (negb (ref_first && abba_mode),
     emit (step_script fs_name E ref_first)
          (step_scaninfo fs_name E ref_first) io).
Proof.
  unfold SSRL6.energy_body. rewrite ref_rep_loop, sample_loop.
  rewrite (relabel_visits ref_first).
  unfold SSRL6.step_script, SSRL6.step_scaninfo, SSRL6.reference_block,
    SSRL6.sample_blocks, SSRL6.energy_header, SSRL6.wait_line.
  fold (ref_files fs_name E).
  destruct ref_first, (truthy frame_rest); cbn [andb negb];
    rewrite !dest_write_emit, !emit_emit; text_eq.
Qed.

Lemma ref_before_succ (k : nat) :
  negb (ref_before k && abba_mode) = ref_before (S k).
Proof.
  unfold SSRL6.ref_before. destruct abba_mode; [|reflexivity].
  now rewrite andb_true_r, Nat.even_succ, <- Nat.negb_even.
Qed.

(** *** The energy loop of one iteration *)

Lemma energy_loop (fs_name : ident) (es : list T) :
  forall (k : nat) (io : Sinks),
    fold_left (energy_body fs_name) es (ref_before k, io)
    = (ref_before (k + List.length es),
       emit (join (map (fun kE => step_script fs_name (snd kE) (ref_before (fst kE)))
                       (SSRL6.indexed k es)))
            (join (map (fun kE => step_scaninfo fs_name (snd kE) (ref_before (fst kE)))
                       (SSRL6.indexed k es)))
            io).
Proof.
  induction es as [|E es IH]; intros k io.
  - cbn. now rewrite Nat.add_0_r, emit_nothing.
  - cbn [fold_left]. rewrite energy_step, ref_before_succ, IH, emit_emit.
    cbn [List.length]. rewrite Nat.add_succ_r. reflexivity.
Qed.

Lemma iteration_step (st : option ident * Sinks) (fs_name : ident) :
  iteration_body st fs_name
  = (Some fs_name,
     emit (iteration_script fs_name) (iteration_scaninfo fs_name) (snd st)).
Proof.
  destruct st as [bound io]. unfold SSRL6.iteration_body.
  assert (Hstart : ref_before 0 = true)
    by (unfold SSRL6.ref_before; now destruct abba_mode).
  pose proof (energy_loop fs_name energies 0) as Hloop.
  rewrite Hstart in Hloop.
  rewrite Hloop, !dest_write_emit, !emit_emit.
  unfold SSRL6.iteration_script, SSRL6.iteration_scaninfo, SSRL6.park.
  cbn [snd]. text_eq.
Qed.

(** The value [fs_name] is bound to once the loop over [its] is over. *)
Lemma iteration_loop (its : list ident) :
  forall (st : option ident * Sinks),
    fold_left iteration_body its st
    = (fold_left (fun _ fs_name => Some fs_name) its (fst st),
       emit (join (map iteration_script its))
            (join (map iteration_scaninfo its)) (snd st)).
Proof.
  induction its as [|fs_name its IH]; intros [bound io].
  - cbn. now rewrite emit_nothing.
  - cbn [fold_left]. rewrite iteration_step, IH. cbn [fst snd].
    rewrite emit_emit. reflexivity.
Qed.

Lemma bound_after_loop (its : list ident) (bound : option ident) :
  fold_left (fun _ fs_name => Some fs_name) its bound
  = match last_item its with
    | Return fs_name => Some fs_name
    | Raise _ => bound
    end.
Proof.
  unfold last_item.
  induction its as [|fs_name its IH] using rev_ind; [reflexivity|].
  rewrite fold_left_app, rev_app_distr. reflexivity.
Qed.

(** The comparison after the loop is between the last identifier and
    itself, so the rest between iterations is never written. *)
Lemma iteration_rest_check_after_loop (io : Sinks) :
  iteration_rest_check
    (fold_left (fun _ fs_name => Some fs_name) iterations None) io
  = if truthy iteration_rest
    then match iterations with
         | [] => Raise (NameError "fs_name")
         | _ :: _ => Return io
         end
    else Return io.
Proof.
  unfold SSRL6.iteration_rest_check. rewrite bound_after_loop.
  destruct (truthy iteration_rest); [|reflexivity].
  destruct iterations as [|a its]; [reflexivity|].
  unfold last_item.
  destruct (rev (a :: its)) as [|b l] eqn:Hrev.
  - apply (f_equal (@List.length ident)) in Hrev.
    rewrite length_rev in Hrev. discriminate.
  - cbn. destruct (ident_eq_dec b b) as [_|Hne]; [reflexivity|].
    now contradiction Hne.
Qed.

(** *** The whole call *)

Lemma ssrl6_outcome (dest0 : string) :
  ssrl6_xanes_script dest0
  = if truthy frame_rest && abba_mode then
      {| out_dest := dest0; out_scaninfo := None;
         out_raised :=
           Some (ValueError "Cannot use `frame_rest` and `abba_mode` together.") |}
    else
      {| out_dest := dest0 ++ join (map iteration_script iterations);
         out_scaninfo :=
           Some (write_scaninfo_header "" abba_mode repetitions ref_repetitions
                   ++ join (map iteration_scaninfo iterations));
         out_raised :=
           if truthy iteration_rest
           then match iterations with
                | [] => Some (NameError "fs_name")
                | _ :: _ => None
                end
           else None |}.
Proof.
  unfold SSRL6.ssrl6_xanes_script.
  destruct (truthy frame_rest && abba_mode); [reflexivity|].
  rewrite iteration_loop. cbn [fst snd].
  rewrite iteration_rest_check_after_loop.
  destruct (truthy iteration_rest); [destruct iterations|]; reflexivity.
Qed.

(** The call for identifiers compared by [ne]: the one line that may
    follow the iterations is a wait, written when the last identifier
    differs from itself. *)
Lemma ssrl6_ne_outcome (ne : ident -> ident -> bool) (dest0 : string) :
  SSRL6.ssrl6_xanes_script_ne str energies zoneplate positions
    reference_position iterations iteration_rest frame_rest binning exposure
    repetitions ref_repetitions abba_mode ne dest0
  = if truthy frame_rest && abba_mode then
      {| out_dest := dest0; out_scaninfo := None;
         out_raised :=
           Some (ValueError "Cannot use `frame_rest` and `abba_mode` together.") |}
    else
      {| out_dest :=
           dest0 ++ join (map iteration_script iterations)
             ++ (if truthy iteration_rest
                 then match last_item iterations with
                      | Return last =>
                          if ne last last then wait_line iteration_rest
                          else ""
                      | Raise _ => ""
                      end
                 else "");
         out_scaninfo :=
           Some (write_scaninfo_header "" abba_mode repetitions ref_repetitions
                   ++ join (map iteration_scaninfo iterations));
         out_raised :=
           if truthy iteration_rest
           then match last_item iterations with
                | Return _ => None
                | Raise _ => Some (NameError "fs_name")
                end
           else None |}.
Proof.
  unfold SSRL6.ssrl6_xanes_script_ne.
  destruct (truthy frame_rest && abba_mode); [reflexivity|].
  rewrite iteration_loop. cbn [fst snd].
  unfold SSRL6.iteration_rest_check_ne. rewrite bound_after_loop.
  destruct (truthy iteration_rest);
    [|cbn [emit dest scaninfo]; now rewrite append_empty_r].
  destruct (last_item iterations) as [last|e];
    [|cbn [emit dest scaninfo]; now rewrite append_empty_r].
  cbn [bind]. unfold SSRL6.wait_line.
  destruct (ne last last); cbn [emit dest_write dest scaninfo];
    now rewrite ?append_empty_r, ?append_assoc.
Qed.

(** With [!=] the negation of equality it is the call above. *)
Lemma ssrl6_ne_agrees (dest0 : string) :
  SSRL6.ssrl6_xanes_script_ne str energies zoneplate positions
    reference_position iterations iteration_rest frame_rest binning exposure
    repetitions ref_repetitions abba_mode
    (fun a b => if ident_eq_dec a b then false else true) dest0
  = ssrl6_xanes_script dest0.
Proof.
  unfold SSRL6.ssrl6_xanes_script_ne, SSRL6.ssrl6_xanes_script.
  destruct (truthy frame_rest && abba_mode); [reflexivity|].
  destruct (fold_left iteration_body iterations _) as [bound io].
  unfold SSRL6.iteration_rest_check_ne, SSRL6.iteration_rest_check.
  destruct (truthy iteration_rest); [|reflexivity].
  destruct bound as [fs_name|]; [|reflexivity].
  destruct (last_item iterations) as [last|e]; [|reflexivity].
  cbn [bind]. now destruct (ident_eq_dec fs_name last).
Qed.

(** The argument check, as used by several statements. *)
Lemma ssrl6_frame_rest_abba_raised (dest0 : string) :
  truthy frame_rest = true ->
  abba_mode = true ->
  out_raised (ssrl6_xanes_script dest0)
  = Some (ValueError "Cannot use `frame_rest` and `abba_mode` together.").
Proof.
  intros Hrest Habba. rewrite ssrl6_outcome. now rewrite Hrest, Habba.
Qed.

(** *** Statements about the call *)

(** C8.  With both [frame_rest] and [abba_mode] truthy the call raises at
    once (the source raises [ValueError], the error the specification calls
    a configuration error): [dest] still holds exactly what it held before
    the call, the ScanInfo file has not been opened, and no iteration has
    run, whatever the other arguments are. *)
Theorem ssrl6_frame_rest_with_abba_raises (dest0 : string) :
  truthy frame_rest = true ->
  abba_mode = true ->
  ssrl6_xanes_script dest0
  = {| out_dest := dest0;
       out_scaninfo := None;
       out_raised :=
         Some (ValueError "Cannot use `frame_rest` and `abba_mode` together.") |}.
Proof.
  intros Hrest Habba. unfold SSRL6.ssrl6_xanes_script.
  now rewrite Hrest, Habba.
Qed.

(** C4.  In a call that passes the argument check, every iteration writes
    its header, then one step per energy, then the parking moves.  The
    [k]-th step of an iteration (from 0) places the reference block before
    the sample blocks when [ref_before k] holds and after them otherwise.
    [ref_before] is true at step 0 of every iteration; with [abba_mode] it
    flips at every step, without it it stays true. *)
Theorem ssrl6_reference_placement (dest0 : string) :
  truthy frame_rest && abba_mode = false ->
  out_dest (ssrl6_xanes_script dest0)
  = dest0
      ++ join
           (map (fun fs_name =>
                   ";; 2D XANES ;;" ++ nl
                     ++ join
                          (map (fun kE =>
                                  step_script fs_name (snd kE)
                                    (ref_before (fst kE)))
                               (SSRL6.indexed 0 energies))
                     ++ park)
                iterations)
  /\ (forall fs_name E,
        step_script fs_name E true
        = energy_header E
            ++ reference_block fs_name E true ++ sample_blocks fs_name E true)
  /\ (forall fs_name E,
        step_script fs_name E false
        = energy_header E
            ++ sample_blocks fs_name E false ++ reference_block fs_name E false)
  /\ ref_before 0 = true
  /\ (abba_mode = true -> forall k, ref_before (S k) = negb (ref_before k))
  /\ (abba_mode = false -> forall k, ref_before k = true).
Proof.
  intros Hvalid. rewrite ssrl6_outcome, Hvalid. cbn [out_dest].
  repeat split.
  - unfold SSRL6.ref_before. now destruct abba_mode.
  - intros Habba k. rewrite <- ref_before_succ, Habba.
    now rewrite andb_true_r.
  - intros Habba k. unfold SSRL6.ref_before. now rewrite Habba.
Qed.

(** C5.  The sample loop of a backwards step, which walks [positions]
    reversed and labels slot [idx] with [len - idx - 1], writes the blocks of
    the pairs (index in [positions], position) in reverse order: each block
    carries, in its two comment lines and in its file names, the index its
    position has in [positions].  The forwards loop writes the blocks of the
    same pairs in order.  A whole backwards step is the energy header, these
    blocks, then the reference block. *)
Theorem ssrl6_reverse_keeps_fov_index (fs_name : ident) (E : T) (io : Sinks) :
  fold_left (sample_body fs_name E false (rev positions))
            (enumerate (rev positions)) io
  = emit (join (map (sample_block fs_name E) (rev (enumerate positions))))
         (join (map (fun item => join (sam_files fs_name E (fst item)))
                    (rev (enumerate positions))))
         io
  /\ dest (snd (energy_body fs_name (false, io) E))
     = dest io
         ++ energy_header E
         ++ join (map (sample_block fs_name E) (rev (enumerate positions)))
         ++ reference_block fs_name E false
  /\ fold_left (sample_body fs_name E true positions)
               (enumerate positions) io
     = emit (join (map (sample_block fs_name E) (enumerate positions)))
            (join (map (fun item => join (sam_files fs_name E (fst item)))
                       (enumerate positions)))
            io
  /\ (forall fov sam_pos,
        In (fov, sam_pos) (enumerate positions) ->
        getitem positions fov = Return sam_pos)
  /\ (forall fov sam_pos,
        sample_block fs_name E (fov, sam_pos)
        = ";;;; Move to sample position " ++ str_int fov ++ nl
            ++ pos_template sam_pos
            ++ ";;;; Collect frames sample position " ++ str_int fov ++ nl
            ++ exposure_str
            ++ collect_lines
                 (map (fun rep => sam_template fs_name fov E rep repetitions)
                      (range 0 repetitions))).
Proof.
  split; [|split; [|split; [|split]]].
  - rewrite sample_loop.
    pose proof (relabel_visits false) as Hrev. cbn in Hrev.
    now rewrite Hrev.
  - rewrite energy_step. cbn [snd]. unfold SSRL6.emit. cbn [dest].
    reflexivity.
  - rewrite sample_loop.
    pose proof (relabel_visits true) as Hfwd. cbn in Hfwd.
    now rewrite Hfwd.
  - intros fov sam_pos Hin. now apply enumerate_getitem.
  - reflexivity.
Qed.

Lemma indexed_map_snd {A B} (g : A -> B) (l : list A) :
  forall k, map (fun kE => g (snd kE)) (SSRL6.indexed k l) = map g l.
Proof.
  unfold SSRL6.indexed.
  induction l as [|a l IH]; intros k; [reflexivity|].
  cbn [List.length seq combine map snd]. now rewrite IH.
Qed.

(** C10.  In a call with [frame_rest] truthy that passes the argument check,
    [abba_mode] is falsy.  Every iteration of the call starts its energy
    loop with the flag true; take any energy [E] of the scan, with [pre] the
    energies before it and [post] those after it: the iteration runs the
    step of [E] in the state [entering] its loop has reached after [pre],
    and in that state the flag is true, so the guard of the wait behind the
    reference frames is false, and the step writes the reference block
    first, with [wait frame_rest] between the move to the reference
    position and the reference exposures and nothing behind them.  The
    script of the whole call is therefore, per iteration and per energy,
    the energy header, the reference block with the wait before its
    exposures, and the sample blocks in forward order. *)
Theorem ssrl6_frame_rest_waits_before_reference (dest0 : string) :
  truthy frame_rest = true ->
  (forall msg, out_raised (ssrl6_xanes_script dest0) <> Some (ValueError msg)) ->
  abba_mode = false
  /\ (forall (st : option ident * Sinks) (fs_name : ident)
        (pre post : list T) (E : T),
        energies = (pre ++ E :: post)%list ->
        let entering :=
          fold_left (energy_body fs_name) pre
            (true, dest_write (";; 2D XANES ;;" ++ nl) (snd st)) in
        iteration_body st fs_name
        = (Some fs_name,
           dest_write (pos_template reference_position)
             (dest_write (";;;; Park at reference position" ++ nl)
                (snd (fold_left (energy_body fs_name) post
                        (energy_body fs_name entering E)))))
        /\ fst entering = true
        /\ truthy frame_rest && negb (fst entering) = false
        /\ energy_body fs_name entering E
           = (true,
              emit (energy_header E
                      ++ (";;;; Move to reference position" ++ nl
                            ++ pos_template reference_position
                            ++ "wait " ++ str_int frame_rest ++ nl
                            ++ ";;;; Collect reference frames" ++ nl
                            ++ exposure_str
                            ++ collect_lines (ref_files fs_name E))
                      ++ sample_blocks fs_name E true)
                   (step_scaninfo fs_name E true)
                   (snd entering)))
  /\ out_dest (ssrl6_xanes_script dest0)
     = dest0
         ++ join
              (map (fun fs_name =>
                      ";; 2D XANES ;;" ++ nl
                        ++ join
                             (map (fun E =>
                                     energy_header E
                                       ++ (";;;; Move to reference position" ++ nl
                                             ++ pos_template reference_position
                                             ++ "wait " ++ str_int frame_rest ++ nl
                                             ++ ";;;; Collect reference frames" ++ nl
                                             ++ exposure_str
                                             ++ collect_lines (ref_files fs_name E))
                                       ++ sample_blocks fs_name E true)
                                  energies)
                        ++ park)
                   iterations).
Proof.
  intros Hrest Hvalid.
  assert (Habba : abba_mode = false).
  { apply not_true_is_false. intros Habba. eapply Hvalid.
    apply ssrl6_frame_rest_abba_raised; assumption. }
  assert (Hflag : forall k, ref_before k = true)
    by (intros k; unfold SSRL6.ref_before; now rewrite Habba).
  assert (Hstep : forall fs_name E,
    step_script fs_name E true
    = energy_header E
        ++ (";;;; Move to reference position" ++ nl
              ++ pos_template reference_position
              ++ "wait " ++ str_int frame_rest ++ nl
              ++ ";;;; Collect reference frames" ++ nl
              ++ exposure_str
              ++ collect_lines (ref_files fs_name E))
        ++ sample_blocks fs_name E true).
  { intros fs_name E.
    unfold SSRL6.step_script, SSRL6.reference_block, SSRL6.wait_line.
    rewrite Hrest. cbn [andb negb]. text_eq. }
  split; [exact Habba|]. split.
  - intros [bound io] fs_name pre post E Hsplit entering. cbn [snd] in entering.
    split.
    + unfold SSRL6.iteration_body. rewrite Hsplit, fold_left_app.
      cbn [fold_left]. fold entering.
      now destruct (fold_left (energy_body fs_name) post
                      (energy_body fs_name entering E)).
    + pose proof (energy_loop fs_name pre 0
                    (dest_write (";; 2D XANES ;;" ++ nl) io)) as Hloop.
      rewrite !Hflag in Hloop. subst entering.
      rewrite Hloop. cbn [fst snd]. rewrite Hrest.
      split; [reflexivity|]. split; [reflexivity|].
      rewrite energy_step, Habba, Hstep. reflexivity.
  - assert (Hpass : truthy frame_rest && abba_mode = false)
      by (rewrite Habba; apply andb_false_r).
    rewrite ssrl6_outcome, Hpass. cbn [out_dest].
    f_equal. f_equal. apply map_ext. intros fs_name.
    unfold SSRL6.iteration_script.
    set (step := fun E =>
           energy_header E
             ++ (";;;; Move to reference position" ++ nl
                   ++ pos_template reference_position
                   ++ "wait " ++ str_int frame_rest ++ nl
                   ++ ";;;; Collect reference frames" ++ nl
                   ++ exposure_str
                   ++ collect_lines (ref_files fs_name E))
             ++ sample_blocks fs_name E true).
    rewrite <- (indexed_map_snd step energies 0).
    rewrite (map_ext
               (fun kE => step_script fs_name (snd kE) (ref_before (fst kE)))
               (fun kE => step (snd kE)));
      [reflexivity|].
    intros kE. rewrite Hflag, Hstep. reflexivity.
Qed.

(** *** The file names of the two artifacts *)

(** The identifiers of the call and numbers print on one line. *)
Hypothesis str_no_nl :
  forall name, In name iterations -> has_nl (str name) = false.
Hypothesis fmt_2f_no_nl : forall n : T, has_nl (fmt_2f n) = false.
Hypothesis fmt_071f_no_nl : forall n : T, has_nl (fmt_071f n) = false.

Local Abbreviation ref_name := (SSRL6.ref_name str).
Local Abbreviation sam_name := (SSRL6.sam_name str).
Local Abbreviation ref_names := (SSRL6.ref_names str ref_repetitions).
Local Abbreviation sam_names := (SSRL6.sam_names str positions repetitions).
Local Abbreviation step_collected :=
  (SSRL6.step_collected str positions repetitions ref_repetitions).
Local Abbreviation step_listed :=
  (SSRL6.step_listed str positions repetitions ref_repetitions).
Local Abbreviation script_collected :=
  (SSRL6.script_collected str energies positions iterations repetitions
     ref_repetitions abba_mode).
Local Abbreviation script_listed :=
  (SSRL6.script_listed str energies positions iterations repetitions
     ref_repetitions abba_mode).

Lemma ref_name_no_nl (name : ident) (E : T) (ctr total : Z) :
  In name iterations -> has_nl (ref_name name E ctr total) = false.
Proof.
  intros Hname. unfold SSRL6.ref_name.
  now rewrite !has_nl_app, str_no_nl, fmt_071f_no_nl, !fmt_0d_no_nl.
Qed.

Lemma sam_name_no_nl (name : ident) (fov : Z) (E : T) (ctr total : Z) :
  In name iterations -> has_nl (sam_name name fov E ctr total) = false.
Proof.
  intros Hname. unfold SSRL6.sam_name.
  now rewrite !has_nl_app, str_no_nl, str_int_no_nl, fmt_071f_no_nl,
    !fmt_0d_no_nl.
Qed.


Ltac no_nl :=
  rewrite ?has_nl_app, ?fmt_2f_no_nl, ?fmt_071f_no_nl,
    ?str_int_no_nl, ?fmt_0d_no_nl;
  reflexivity.

(** Reads a text piece by piece: comment and command lines are skipped,
    blocks are read by the lemmas of [reads_db]. *)
Ltac read_text :=
  lazymatch goal with
  | |- reads _ (_ ++ nl ++ _) _ =>
      apply reads_skip1; [no_nl | reflexivity | read_text]
  | |- reads _ (_ ++ nl) _ =>
      apply reads_skip1_end; [no_nl | reflexivity]
  | |- reads _ (_ ++ _) _ =>
      first [ eapply reads_app; [solve [eauto with reads_db] | read_text]
            | apply reads_skip2; [no_nl | reflexivity | read_text]
            | apply reads_skip2_end; [no_nl | reflexivity] ]
  | |- reads _ _ _ => solve [eauto with reads_db]
  end.

Ltac read_as := eapply reads_as; [read_text | rewrite ?app_nil_r; reflexivity].

(** Lines that are not [collect] lines. *)
Lemma reads_pos_template (p : position T) :
  reads collected_by (pos_template p) [].
Proof. unfold SSRL6.pos_template. read_as. Qed.

Lemma reads_exposure_str : reads collected_by exposure_str [].
Proof. unfold SSRL6.exposure_str. read_as. Qed.

Lemma reads_energy_header (E : T) : reads collected_by (energy_header E) [].
Proof. unfold SSRL6.energy_header. read_as. Qed.

Lemma reads_wait_line (seconds : Z) :
  reads collected_by (wait_line seconds) [].
Proof. unfold SSRL6.wait_line. read_as. Qed.

#[local] Hint Resolve reads_pos_template reads_exposure_str
  reads_energy_header reads_wait_line : reads_db.

Lemma reads_park : reads collected_by park [].
Proof. unfold SSRL6.park. read_as. Qed.


(** The [collect] lines of a run of frames. *)
Lemma reads_collect_ref (fs_name : ident) (E : T) :
  In fs_name iterations ->
  reads collected_by (collect_lines (ref_files fs_name E))
        (ref_names fs_name E).
Proof.
  intros Hname.
  unfold SSRL6.collect_lines, SSRL6.ref_files, SSRL6.ref_names.
  rewrite map_map. eapply reads_as; [|apply flat_map_singleton].
  apply reads_join. intros rep.
  apply (reads_line_as _ _
           ("collect " ++ ref_name fs_name E rep ref_repetitions)).
  - unfold SSRL6.ref_template, SSRL6.ref_name. text_eq.
  - now rewrite has_nl_app, ref_name_no_nl.
  - reflexivity.
Qed.

Lemma reads_collect_sam (fs_name : ident) (E : T) (fov : Z) :
  In fs_name iterations ->
  reads collected_by (collect_lines (sam_files fs_name E fov))
        (map (fun rep => sam_name fs_name fov E rep repetitions)
             (range 0 repetitions)).
Proof.
  intros Hname.
  unfold SSRL6.collect_lines, SSRL6.sam_files.
  rewrite map_map. eapply reads_as; [|apply flat_map_singleton].
  apply reads_join. intros rep.
  apply (reads_line_as _ _
           ("collect " ++ sam_name fs_name fov E rep repetitions)).
  - unfold SSRL6.sam_template, SSRL6.sam_name. text_eq.
  - now rewrite has_nl_app, sam_name_no_nl.
  - reflexivity.
Qed.

#[local] Hint Resolve reads_collect_ref reads_collect_sam reads_park
  : reads_db.

Lemma reads_reference_block (fs_name : ident) (E : T) (ref_first : bool) :
  In fs_name iterations ->
  reads collected_by (reference_block fs_name E ref_first)
        (ref_names fs_name E).
Proof.
  intros Hname. unfold SSRL6.reference_block.
  destruct (truthy frame_rest), ref_first; cbn [andb negb]; read_as.
Qed.

Lemma reads_sample_block (fs_name : ident) (E : T) (item : Z * position T) :
  In fs_name iterations ->
  reads collected_by (sample_block fs_name E item)
        (map (fun rep => sam_name fs_name (fst item) E rep repetitions)
             (range 0 repetitions)).
Proof. intros Hname. unfold SSRL6.sample_block. read_as. Qed.

Lemma reads_sample_blocks (fs_name : ident) (E : T) (ref_first : bool) :
  In fs_name iterations ->
  reads collected_by (sample_blocks fs_name E ref_first)
        (sam_names fs_name E ref_first).
Proof.
  intros Hname. unfold SSRL6.sample_blocks, SSRL6.sam_names.
  apply reads_join. intros item. now apply reads_sample_block.
Qed.

#[local] Hint Resolve reads_reference_block reads_sample_blocks : reads_db.

Lemma reads_step_script (fs_name : ident) (E : T) (before : bool) :
  In fs_name iterations ->
  reads collected_by (step_script fs_name E before)
        (step_collected fs_name E before).
Proof.
  intros Hname. unfold SSRL6.step_script, SSRL6.step_collected.
  destruct before; read_as.
Qed.

Lemma reads_iteration_script (fs_name : ident) :
  In fs_name iterations ->
  reads collected_by (iteration_script fs_name)
        (flat_map (fun kE => step_collected fs_name (snd kE)
                               (ref_before (fst kE)))
                  (SSRL6.indexed 0 energies)).
Proof.
  intros Hname. unfold SSRL6.iteration_script.
  apply reads_skip1; [reflexivity|reflexivity|].
  eapply reads_as.
  - eapply reads_app; [|apply reads_park].
    apply reads_join with
      (h := fun kE => step_collected fs_name (snd kE) (ref_before (fst kE))).
    intros kE. now apply reads_step_script.
  - apply app_nil_r.
Qed.

(** The file names ScanInfo receives. *)
Lemma lists_ref_files (fs_name : ident) (E : T) :
  In fs_name iterations ->
  reads (fun l => [l]) (join (ref_files fs_name E)) (ref_names fs_name E).
Proof.
  intros Hname. unfold SSRL6.ref_files, SSRL6.ref_names.
  eapply reads_as; [|apply flat_map_singleton].
  apply reads_join. intros rep.
  apply (reads_line_as _ _ (ref_name fs_name E rep ref_repetitions)).
  - unfold SSRL6.ref_template, SSRL6.ref_name. text_eq.
  - now apply ref_name_no_nl.
  - reflexivity.
Qed.

Lemma lists_sam_files (fs_name : ident) (E : T) (fov : Z) :
  In fs_name iterations ->
  reads (fun l => [l]) (join (sam_files fs_name E fov))
        (map (fun rep => sam_name fs_name fov E rep repetitions)
             (range 0 repetitions)).
Proof.
  intros Hname. unfold SSRL6.sam_files.
  eapply reads_as; [|apply flat_map_singleton].
  apply reads_join. intros rep.
  apply (reads_line_as _ _ (sam_name fs_name fov E rep repetitions)).
  - unfold SSRL6.sam_template, SSRL6.sam_name. text_eq.
  - now apply sam_name_no_nl.
  - reflexivity.
Qed.

Lemma lists_step_scaninfo (fs_name : ident) (E : T) (ref_first : bool) :
  In fs_name iterations ->
  reads (fun l => [l]) (step_scaninfo fs_name E ref_first)
        (step_listed fs_name E ref_first).
Proof.
  intros Hname.
  unfold SSRL6.step_scaninfo, SSRL6.step_listed, SSRL6.sam_names.
  apply reads_app; [now apply lists_ref_files|].
  apply reads_join. intros item. now apply lists_sam_files.
Qed.

Lemma lists_iteration_scaninfo (fs_name : ident) :
  In fs_name iterations ->
  reads (fun l => [l]) (iteration_scaninfo fs_name)
        (flat_map (fun kE => step_listed fs_name (snd kE)
                               (ref_before (fst kE)))
                  (SSRL6.indexed 0 energies)).
Proof.
  intros Hname. unfold SSRL6.iteration_scaninfo.
  apply reads_join with
    (h := fun kE => step_listed fs_name (snd kE) (ref_before (fst kE))).
  intros kE. now apply lists_step_scaninfo.
Qed.

(** What each artifact names, in a call on an empty [dest] that passes the
    argument check. *)
Lemma ssrl6_collect_filenames :
  truthy frame_rest && abba_mode = false ->
  collect_filenames (out_dest (ssrl6_xanes_script "")) = script_collected.
Proof.
  intros Hvalid. rewrite ssrl6_outcome, Hvalid. cbn [out_dest].
  rewrite append_empty_l. unfold collect_filenames.
  apply reads_all. unfold SSRL6.script_collected.
  apply reads_join_in. intros fs_name Hname.
  now apply reads_iteration_script.
Qed.

Lemma ssrl6_scaninfo_filenames :
  truthy frame_rest && abba_mode = false ->
  option_map scaninfo_filenames (out_scaninfo (ssrl6_xanes_script ""))
  = Some script_listed.
Proof.
  intros Hvalid. rewrite ssrl6_outcome, Hvalid. cbn [out_scaninfo option_map].
  f_equal. unfold scaninfo_filenames.
  rewrite write_scaninfo_header_text, append_empty_l.
  rewrite lines_unlines_app by apply scaninfo_header_lines_no_nl.
  rewrite <- app_assoc. cbn [app].
  rewrite (proj2 (scaninfo_header_marker _ _ _ _)).
  rewrite <- (flat_map_id_lines (lines _)).
  apply reads_all. unfold SSRL6.script_listed.
  apply reads_join_in. intros fs_name Hname.
  now apply lists_iteration_scaninfo.
Qed.

(** X1.  Without [abba_mode] the reference block always comes first, and
    the names ScanInfo lists below [FILES] are the names on the [collect]
    lines of the script, in the same order. *)
Lemma ssrl6_filenames_agree_without_abba :
  abba_mode = false ->
  option_map scaninfo_filenames (out_scaninfo (ssrl6_xanes_script ""))
  = Some (collect_filenames (out_dest (ssrl6_xanes_script ""))).
Proof.
  intros Habba.
  assert (Hvalid : truthy frame_rest && abba_mode = false)
    by (rewrite Habba; apply andb_false_r).
  rewrite ssrl6_scaninfo_filenames, ssrl6_collect_filenames by assumption.
  f_equal. unfold SSRL6.script_listed, SSRL6.script_collected.
  apply flat_map_ext. intros fs_name. apply flat_map_ext. intros kE.
  unfold SSRL6.ref_before. now rewrite Habba.
Qed.

(** *** Further properties of the call *)

(** X2.  With no iteration to run, a call that passes the argument check
    leaves [dest] as it was and writes the header alone to ScanInfo; it
    returns when [iteration_rest] is zero and otherwise fails on the
    unbound loop variable of the statement after the loop. *)
Theorem ssrl6_without_iterations (dest0 : string) :
  iterations = [] ->
  truthy frame_rest && abba_mode = false ->
  ssrl6_xanes_script dest0
  = {| out_dest := dest0;
       out_scaninfo :=
         Some (write_scaninfo_header "" abba_mode repetitions ref_repetitions);
       out_raised :=
         if truthy iteration_rest then Some (NameError "fs_name") else None |}.
Proof.
  intros Hnone Hvalid. rewrite ssrl6_outcome, Hvalid, Hnone.
  cbn [map join fold_right]. now rewrite !append_empty_r.
Qed.

(** X3.  Whatever the frames are called, the ScanInfo file of a call that
    passes the argument check reads back, above its [FILES] marker, as the
    nineteen header lines of the call's [abba_mode], [repetitions] and
    [ref_repetitions]. *)
Theorem ssrl6_scaninfo_header_reads_back (dest0 : string) :
  truthy frame_rest && abba_mode = false ->
  option_map scaninfo_header (out_scaninfo (ssrl6_xanes_script dest0))
  = Some (scaninfo_header_lines abba_mode repetitions ref_repetitions).
Proof.
  intros Hvalid. rewrite ssrl6_outcome, Hvalid. cbn [out_scaninfo option_map].
  f_equal. unfold scaninfo_header.
  rewrite write_scaninfo_header_text, append_empty_l.
  rewrite lines_unlines_app by apply scaninfo_header_lines_no_nl.
  rewrite <- app_assoc. cbn [app].
  apply scaninfo_header_marker.
Qed.

Lemma visits_length (ref_first : bool) :
  List.length (visits ref_first) = List.length positions.
Proof.
  unfold SSRL6.visits. destruct ref_first;
    now rewrite ?length_rev, enumerate_length.
Qed.

Lemma step_collected_length (fs_name : ident) (E : T) (ref_first : bool) :
  List.length (step_collected fs_name E ref_first)
  = (Z.to_nat ref_repetitions
     + List.length positions * Z.to_nat repetitions)%nat.
Proof.
  assert (Hsam : forall b,
    List.length (sam_names fs_name E b)
    = (List.length positions * Z.to_nat repetitions)%nat).
  { intros b. unfold SSRL6.sam_names.
    rewrite (flat_map_length_const _ (Z.to_nat repetitions)), visits_length;
      [reflexivity|].
    intros item. now rewrite length_map, range_0_length. }
  assert (Href : List.length (ref_names fs_name E) = Z.to_nat ref_repetitions)
    by (unfold SSRL6.ref_names; now rewrite length_map, range_0_length).
  unfold SSRL6.step_collected.
  destruct ref_first; rewrite length_app, Hsam, Href; lia.
Qed.

Lemma indexed_length {A} (k : nat) (l : list A) :
  List.length (SSRL6.indexed k l) = List.length l.
Proof.
  unfold SSRL6.indexed. rewrite length_combine, length_seq. apply Nat.min_id.
Qed.

(** X4.  A call on an empty [dest] that passes the argument check collects,
    in every iteration and at every energy, [ref_repetitions] reference
    frames and [repetitions] frames per sample position (negative counts
    as zero): the script has exactly that many [collect] lines. *)
Theorem ssrl6_frame_count :
  truthy frame_rest && abba_mode = false ->
  List.length (collect_filenames (out_dest (ssrl6_xanes_script "")))
  = (List.length iterations
     * (List.length energies
        * (Z.to_nat ref_repetitions
           + List.length positions * Z.to_nat repetitions)))%nat.
Proof.
  intros Hvalid. rewrite ssrl6_collect_filenames by assumption.
  unfold SSRL6.script_collected.
  apply flat_map_length_const. intros fs_name.
  rewrite (flat_map_length_const _
             (Z.to_nat ref_repetitions
              + List.length positions * Z.to_nat repetitions)),
    indexed_length; [reflexivity|].
  intros kE. apply step_collected_length.
Qed.

(** X5.  In every call on an empty [dest] that passes the argument check,
    with or without [abba_mode], the names ScanInfo lists below [FILES] are
    a rearrangement of the names the script collects: no frame is missing
    from ScanInfo and none is listed that is not collected. *)
Theorem ssrl6_scaninfo_lists_collected_frames :
  truthy frame_rest && abba_mode = false ->
  exists listed,
    option_map scaninfo_filenames (out_scaninfo (ssrl6_xanes_script ""))
    = Some listed
    /\ Permutation listed
         (collect_filenames (out_dest (ssrl6_xanes_script ""))).
Proof.
  intros Hvalid. exists script_listed.
  split; [now apply ssrl6_scaninfo_filenames|].
  rewrite ssrl6_collect_filenames by assumption.
  unfold SSRL6.script_listed, SSRL6.script_collected.
  apply flat_map_permutation. intros fs_name.
  apply flat_map_permutation. intros kE.
  unfold SSRL6.step_listed, SSRL6.step_collected.
  destruct (ref_before (fst kE)); [reflexivity|apply Permutation_app_comm].
Qed.

(** *** The energies a script sets *)

Lemma sets_pos_template (p : position T) :
  reads (taken_by "sete ") (pos_template p) [].
Proof. unfold SSRL6.pos_template. read_as. Qed.

Lemma sets_exposure_str : reads (taken_by "sete ") exposure_str [].
Proof. unfold SSRL6.exposure_str. read_as. Qed.

Lemma sets_wait_line (seconds : Z) :
  reads (taken_by "sete ") (wait_line seconds) [].
Proof. unfold SSRL6.wait_line. read_as. Qed.

#[local] Hint Resolve sets_pos_template sets_exposure_str sets_wait_line
  : reads_db.

Lemma sets_park : reads (taken_by "sete ") park [].
Proof. unfold SSRL6.park. read_as. Qed.

Lemma sets_collect_ref (fs_name : ident) (E : T) :
  In fs_name iterations ->
  reads (taken_by "sete ") (collect_lines (ref_files fs_name E)) [].
Proof.
  intros Hname. unfold SSRL6.collect_lines, SSRL6.ref_files.
  rewrite map_map.
  eapply reads_as;
    [apply reads_join with (h := fun _ => [])|apply flat_map_nothing].
  intros rep.
  apply (reads_line_as _ _
           ("collect " ++ ref_name fs_name E rep ref_repetitions)).
  - unfold SSRL6.ref_template, SSRL6.ref_name. text_eq.
  - now rewrite has_nl_app, ref_name_no_nl.
  - reflexivity.
Qed.

Lemma sets_collect_sam (fs_name : ident) (E : T) (fov : Z) :
  In fs_name iterations ->
  reads (taken_by "sete ") (collect_lines (sam_files fs_name E fov)) [].
Proof.
  intros Hname. unfold SSRL6.collect_lines, SSRL6.sam_files.
  rewrite map_map.
  eapply reads_as;
    [apply reads_join with (h := fun _ => [])|apply flat_map_nothing].
  intros rep.
  apply (reads_line_as _ _
           ("collect " ++ sam_name fs_name fov E rep repetitions)).
  - unfold SSRL6.sam_template, SSRL6.sam_name. text_eq.
  - now rewrite has_nl_app, sam_name_no_nl.
  - reflexivity.
Qed.

#[local] Hint Resolve sets_collect_ref sets_collect_sam sets_park : reads_db.

Lemma sets_reference_block (fs_name : ident) (E : T) (ref_first : bool) :
  In fs_name iterations ->
  reads (taken_by "sete ") (reference_block fs_name E ref_first) [].
Proof.
  intros Hname. unfold SSRL6.reference_block.
  destruct (truthy frame_rest), ref_first; cbn [andb negb]; read_as.
Qed.

Lemma sets_sample_block (fs_name : ident) (E : T) (item : Z * position T) :
  In fs_name iterations ->
  reads (taken_by "sete ") (sample_block fs_name E item) [].
Proof. intros Hname. unfold SSRL6.sample_block. read_as. Qed.

Lemma sets_sample_blocks (fs_name : ident) (E : T) (ref_first : bool) :
  In fs_name iterations ->
  reads (taken_by "sete ") (sample_blocks fs_name E ref_first) [].
Proof.
  intros Hname. unfold SSRL6.sample_blocks.
  eapply reads_as;
    [apply reads_join with (h := fun _ => [])|apply flat_map_nothing].
  intros item. now apply sets_sample_block.
Qed.

#[local] Hint Resolve sets_reference_block sets_sample_blocks : reads_db.

Lemma sets_energy_header (E : T) :
  reads (taken_by "sete ") (energy_header E) [fmt_2f E].
Proof.
  unfold SSRL6.energy_header.
  apply reads_skip1; [reflexivity|reflexivity|].
  rewrite <- (append_assoc "sete "), <- (append_assoc ("sete " ++ fmt_2f E)).
  apply (reads_app _ _ _ [fmt_2f E] []).
  - apply (reads_line_as _ _ ("sete " ++ fmt_2f E));
      [reflexivity|no_nl|reflexivity].
  - read_as.
Qed.

Lemma sets_step_script (fs_name : ident) (E : T) (before : bool) :
  In fs_name iterations ->
  reads (taken_by "sete ") (step_script fs_name E before) [fmt_2f E].
Proof.
  intros Hname. unfold SSRL6.step_script.
  apply (reads_app _ _ _ [fmt_2f E] []); [apply sets_energy_header|].
  destruct before; read_as.
Qed.

Lemma indexed_values {A B} (g : A -> B) (l : list A) :
  forall k,
    flat_map (fun kE => [g (snd kE)]) (SSRL6.indexed k l) = map g l.
Proof.
  unfold SSRL6.indexed.
  induction l as [|a l IH]; intros k; [reflexivity|].
  cbn [List.length seq combine flat_map map snd app]. now rewrite IH.
Qed.

Lemma sets_iteration_script (fs_name : ident) :
  In fs_name iterations ->
  reads (taken_by "sete ") (iteration_script fs_name) (map fmt_2f energies).
Proof.
  intros Hname. unfold SSRL6.iteration_script.
  apply reads_skip1; [reflexivity|reflexivity|].
  eapply reads_as.
  - eapply reads_app; [|apply sets_park].
    apply reads_join with (h := fun kE => [fmt_2f (snd kE)]).
    intros kE. now apply sets_step_script.
  - rewrite app_nil_r. apply indexed_values.
Qed.

(** X6.  A call on an empty [dest] that passes the argument check sets, in
    every iteration, the energies of the edge once each and in the order
    the edge supplies them: the [sete] lines of the script are the printed
    energies, repeated per iteration. *)
Theorem ssrl6_energies_in_order :
  truthy frame_rest && abba_mode = false ->
  energies_set (out_dest (ssrl6_xanes_script ""))
  = flat_map (fun _ => map fmt_2f energies) iterations.
Proof.
  intros Hvalid. rewrite ssrl6_outcome, Hvalid. cbn [out_dest].
  rewrite append_empty_l. unfold energies_set.
  apply reads_all. apply reads_join_in. intros fs_name Hname.
  now apply sets_iteration_script.
Qed.

End SSRL6_properties.

(** The rest between iterations is never written: the script is the same
    text whatever [iteration_rest] is. *)
Lemma ssrl6_script_ignores_iteration_rest
    {T : Type} `{PyNumber T} `{PyFormat T} {ident : Type}
    (ident_eq_dec : forall a b : ident, {a = b} + {a <> b})
    (str : ident -> string) (energies : list T) (zoneplate : Zoneplate.t T)
    (positions : list (position T)) (reference_position : position T)
    (iterations : list ident) (iteration_rest frame_rest binning : Z)
    (exposure : T) (repetitions ref_repetitions : Z) (abba_mode : bool)
    (dest0 : string) :
  out_dest
    (SSRL6.ssrl6_xanes_script ident_eq_dec str energies zoneplate positions
       reference_position iterations iteration_rest frame_rest binning
       exposure repetitions ref_repetitions abba_mode dest0)
  = out_dest
      (SSRL6.ssrl6_xanes_script ident_eq_dec str energies zoneplate positions
         reference_position iterations 0 frame_rest binning exposure
         repetitions ref_repetitions abba_mode dest0).
Proof.
  rewrite !ssrl6_outcome.
  now destruct (truthy frame_rest && abba_mode).
Qed.

(** X7.  For a sequence of identifiers that is not empty, the statement
    after the loop compares the last identifier with itself.  When that
    identifier does not differ from itself (as for [str] and [int]),
    [iteration_rest] changes nothing: the script, the ScanInfo file and the
    way the call ends are the same for any two values.  When it does (a
    NaN), a call that passes the argument check ends its script with one
    [wait iteration_rest] if [iteration_rest] is truthy, and is otherwise
    the call with [iteration_rest = 0]. *)
Theorem ssrl6_iteration_rest_has_no_effect
    {T : Type} `{PyNumber T} `{PyFormat T} {ident : Type}
    (ne : ident -> ident -> bool)
    (str : ident -> string) (energies : list T) (zoneplate : Zoneplate.t T)
    (positions : list (position T)) (reference_position : position T)
    (iterations : list ident) (rest rest' frame_rest binning : Z)
    (exposure : T) (repetitions ref_repetitions : Z) (abba_mode : bool)
    (dest0 : string) (last : ident) :
  last_item iterations = Return last ->
  (ne last last = false ->
   SSRL6.ssrl6_xanes_script_ne str energies zoneplate positions
     reference_position iterations rest frame_rest binning exposure
     repetitions ref_repetitions abba_mode ne dest0
   = SSRL6.ssrl6_xanes_script_ne str energies zoneplate positions
       reference_position iterations rest' frame_rest binning exposure
       repetitions ref_repetitions abba_mode ne dest0)
  /\ (ne last last = true ->
      truthy frame_rest && abba_mode = false ->
      SSRL6.ssrl6_xanes_script_ne str energies zoneplate positions
        reference_position iterations rest frame_rest binning exposure
        repetitions ref_repetitions abba_mode ne dest0
      = if truthy rest
        then {| out_dest :=
                  out_dest
                    (SSRL6.ssrl6_xanes_script_ne str energies zoneplate
                       positions reference_position iterations 0 frame_rest
                       binning exposure repetitions ref_repetitions abba_mode
                       ne dest0)
                    ++ "wait " ++ str_int rest ++ nl;
                out_scaninfo :=
                  out_scaninfo
                    (SSRL6.ssrl6_xanes_script_ne str energies zoneplate
                       positions reference_position iterations 0 frame_rest
                       binning exposure repetitions ref_repetitions abba_mode
                       ne dest0);
                out_raised := None |}
        else SSRL6.ssrl6_xanes_script_ne str energies zoneplate positions
               reference_position iterations 0 frame_rest binning exposure
               repetitions ref_repetitions abba_mode ne dest0).
Proof.
  intros Hlast. rewrite !ssrl6_ne_outcome, Hlast. split.
  - intros Hsame. rewrite Hsame.
    now destruct (truthy frame_rest && abba_mode), (truthy rest),
      (truthy rest').
  - intros Hdiffers Hpass. rewrite Hdiffers, Hpass.
    change (truthy 0) with false. cbn [out_dest out_scaninfo].
    destruct (truthy rest); [|reflexivity].
    unfold SSRL6.wait_line. now rewrite append_empty_r, !append_assoc.
Qed.

(* ================================================================= *)
(** ** class Zoneplate *)

(** The constructor on a second calibration point. *)
Lemma zoneplate_init_two_points {T : Type} `{PyNumber T} `{PyTrueDiv T}
    (start end_ : ZoneplatePoint.t T) :
  Zoneplate.init start None (Some end_)
  = if is_zero (sub (ZoneplatePoint.energy end_) (ZoneplatePoint.energy start))
    then Raise ZeroDivisionError
    else Return
           (Zoneplate.make start
              (Position
                 (quotient
                    (sub (ZoneplatePoint.x end_) (ZoneplatePoint.x start))
                    (sub (ZoneplatePoint.energy end_)
                         (ZoneplatePoint.energy start)))
                 (quotient
                    (sub (ZoneplatePoint.y end_) (ZoneplatePoint.y start))
                    (sub (ZoneplatePoint.energy end_)
                         (ZoneplatePoint.energy start)))
                 (quotient
                    (sub (ZoneplatePoint.z end_) (ZoneplatePoint.z start))
                    (sub (ZoneplatePoint.energy end_)
                         (ZoneplatePoint.energy start))))).
Proof.
  unfold Zoneplate.init, truediv.
  destruct (is_zero _); reflexivity.
Qed.

(** C7 (amended).  What the constructor does for each combination of
    [z_step] and [end]: with both or with neither it raises [ValueError]
    (the configuration error of the specification), and in no other case;
    with [z_step] alone it returns; with [end] alone it returns the model
    with the three quotients as step unless [end] has the energy of
    [start], in which case the division raises [ZeroDivisionError].
    [Detector] inherits the constructor unchanged. *)
Theorem zoneplate_init_outcome {T : Type} `{PyNumber T} `{PyTrueDiv T}
    (start : ZoneplatePoint.t T) (z_step : option T)
    (end_ : option (ZoneplatePoint.t T)) :
  match z_step, end_ with
  | None, None =>
      Zoneplate.init start z_step end_
      = Raise (ValueError "Either `step` or `end` is required.")
  | Some _, Some _ =>
      Zoneplate.init start z_step end_
      = Raise (ValueError "Passing both `step` or `end` is confusing.")
  | Some s, None =>
      Zoneplate.init start z_step end_
      = Return (Zoneplate.make start (Position (of_int 0) (of_int 0) s))
  | None, Some e =>
      let dE := sub (ZoneplatePoint.energy e) (ZoneplatePoint.energy start) in
      Zoneplate.init start z_step end_
      = if is_zero dE then Raise ZeroDivisionError
        else Return
               (Zoneplate.make start
                  (Position
                     (quotient (sub (ZoneplatePoint.x e) (ZoneplatePoint.x start)) dE)
                     (quotient (sub (ZoneplatePoint.y e) (ZoneplatePoint.y start)) dE)
                     (quotient (sub (ZoneplatePoint.z e) (ZoneplatePoint.z start)) dE)))
  end
  /\ ((exists msg, Zoneplate.init start z_step end_ = Raise (ValueError msg))
      <-> (z_step = None /\ end_ = None)
          \/ (z_step <> None /\ end_ <> None))
  /\ Detector.init start z_step end_ = Zoneplate.init start z_step end_.
Proof.
  split; [|split; [|reflexivity]].
  - destruct z_step as [s|], end_ as [e|]; try reflexivity.
    cbv zeta. apply zoneplate_init_two_points.
  - destruct z_step as [s|], end_ as [e|].
    + split; [intros _; right; split; discriminate|].
      intros _. eexists. reflexivity.
    + split; [intros [msg Hmsg]; discriminate|].
      intros [[Hs _]|[_ He]]; [discriminate|now contradiction He].
    + rewrite zoneplate_init_two_points.
      split.
      * intros [msg Hmsg]. destruct (is_zero _); discriminate.
      * intros [[_ He]|[Hs _]]; [discriminate|now contradiction Hs].
    + split; [intros _; left; split; reflexivity|].
      intros _. eexists. reflexivity.
Qed.

Lemma Qc_is_zero_sub (a b : Qc) : a <> b -> is_zero (sub a b) = false.
Proof.
  intros Hne. cbn.
  destruct (Qc_eq_bool (a - b) (Q2Qc 0)) eqn:Hz; [|reflexivity].
  apply Qc_eq_bool_correct in Hz. exfalso. apply Hne.
  replace a with (a - b + b)%Qc by ring. rewrite Hz. ring.
Qed.

(** *** Floating point at the first calibration point *)

Lemma SFcompare_refl (f : spec_float) :
  f <> S754_nan -> SFcompare f f = Some Eq.
Proof.
  destruct f as [s|s| |s m e]; intros Hnan; try reflexivity.
  - now destruct s.
  - now contradiction Hnan.
  - cbn [SFcompare]. rewrite Z.compare_refl, Pos.compare_cont_refl.
    now destruct s.
Qed.

(** [E - E] is [+0.0] for a finite [E]. *)
Lemma SF64sub_diag (f : spec_float) :
  match f with S754_zero _ | S754_finite _ _ _ => True | _ => False end ->
  SF64sub f f = S754_zero false.
Proof.
  destruct f as [s|s| |s m e]; intros Hfin; try contradiction.
  - now destruct s.
  - unfold SF64sub, SFsub. cbv zeta. now rewrite Z.sub_diag.
Qed.

(** [x0 + s * (E - E) == x0]: the product is a zero, which the sum
    absorbs. *)
Lemma float_affine_at_start (x0 s E : float) :
  float_finite E = true ->
  float_finite s = true ->
  float_isnan x0 = false ->
  PrimFloat.eqb (PrimFloat.add x0 (PrimFloat.mul s (PrimFloat.sub E E))) x0
  = true.
Proof.
  unfold float_finite, float_isnan. intros HE Hs Hx.
  rewrite FloatAxioms.eqb_spec, add_spec, mul_spec, sub_spec.
  rewrite SF64sub_diag by (destruct (Prim2SF E); congruence || exact I).
  assert (Hzero : exists b, SF64mul (Prim2SF s) (S754_zero false) = S754_zero b).
  { destruct (Prim2SF s) as [b|b| |b m e]; try discriminate;
      eexists; reflexivity. }
  destruct Hzero as [b ->].
  unfold SFeqb.
  destruct (Prim2SF x0) as [c|c| |c m e] eqn:Hx0; try discriminate.
  - destruct c, b; reflexivity.
  - cbn. now destruct c.
  - unfold SF64add, SFadd.
    rewrite SFcompare_refl; [reflexivity|discriminate].
Qed.

(** C6 (amended).  A zoneplate built from two calibration points at
    different energies predicts, per axis,
    [start + step * (e - start.energy)] with
    [step = (end - start) / (end.energy - start.energy)].  In exact
    arithmetic this is [start] at the energy of [start] and [end] at the
    energy of [end].  In floating point it still compares equal to [start]
    at the energy of [start], provided that energy and the step are finite
    and [start] holds no NaN.  At the energy of [end] it is, per axis, the
    float [start + ((end - start) / dE) * dE] with [dE] the rounded energy
    difference and every operation rounded; nothing ties that value to
    [end]: for the finite points [float_far_start] and [float_far_end] the
    predicted x is [0.0] where that of [end] is [1.0]. *)
Theorem zoneplate_calibration_points :
  (forall start end_ : ZoneplatePoint.t Qc,
     ZoneplatePoint.energy end_ <> ZoneplatePoint.energy start ->
     exists zp : Zoneplate.t Qc,
       Zoneplate.init start None (Some end_) = Return zp
       /\ (forall e : Qc,
            Zoneplate.position zp e
            = Position
                (ZoneplatePoint.x start
                   + (ZoneplatePoint.x end_ - ZoneplatePoint.x start)
                     / (ZoneplatePoint.energy end_ - ZoneplatePoint.energy start)
                     * (e - ZoneplatePoint.energy start))%Qc
                (ZoneplatePoint.y start
                   + (ZoneplatePoint.y end_ - ZoneplatePoint.y start)
                     / (ZoneplatePoint.energy end_ - ZoneplatePoint.energy start)
                     * (e - ZoneplatePoint.energy start))%Qc
                (ZoneplatePoint.z start
                   + (ZoneplatePoint.z end_ - ZoneplatePoint.z start)
                     / (ZoneplatePoint.energy end_ - ZoneplatePoint.energy start)
                     * (e - ZoneplatePoint.energy start))%Qc)
       /\ Zoneplate.position zp (ZoneplatePoint.energy start)
          = Position (ZoneplatePoint.x start) (ZoneplatePoint.y start)
                     (ZoneplatePoint.z start)
       /\ Zoneplate.position zp (ZoneplatePoint.energy end_)
          = Position (ZoneplatePoint.x end_) (ZoneplatePoint.y end_)
                     (ZoneplatePoint.z end_))
  /\ (forall (start end_ : ZoneplatePoint.t float) (zp : Zoneplate.t float),
       Zoneplate.init start None (Some end_) = Return zp ->
       float_finite (ZoneplatePoint.energy start) = true ->
       float_finite (x (Zoneplate.step zp))
         && float_finite (y (Zoneplate.step zp))
         && float_finite (z (Zoneplate.step zp)) = true ->
       float_isnan (ZoneplatePoint.x start)
         || float_isnan (ZoneplatePoint.y start)
         || float_isnan (ZoneplatePoint.z start) = false ->
       PrimFloat.eqb (x (Zoneplate.position zp (ZoneplatePoint.energy start)))
                     (ZoneplatePoint.x start)
         && PrimFloat.eqb (y (Zoneplate.position zp (ZoneplatePoint.energy start)))
                          (ZoneplatePoint.y start)
         && PrimFloat.eqb (z (Zoneplate.position zp (ZoneplatePoint.energy start)))
                          (ZoneplatePoint.z start)
       = true)
  /\ (forall (start end_ : ZoneplatePoint.t float) (zp : Zoneplate.t float),
       Zoneplate.init start None (Some end_) = Return zp ->
       Zoneplate.position zp (ZoneplatePoint.energy end_)
       = Position
           (PrimFloat.add (ZoneplatePoint.x start)
              (PrimFloat.mul
                 (PrimFloat.div
                    (PrimFloat.sub (ZoneplatePoint.x end_)
                                   (ZoneplatePoint.x start))
                    (PrimFloat.sub (ZoneplatePoint.energy end_)
                                   (ZoneplatePoint.energy start)))
                 (PrimFloat.sub (ZoneplatePoint.energy end_)
                                (ZoneplatePoint.energy start))))
           (PrimFloat.add (ZoneplatePoint.y start)
              (PrimFloat.mul
                 (PrimFloat.div
                    (PrimFloat.sub (ZoneplatePoint.y end_)
                                   (ZoneplatePoint.y start))
                    (PrimFloat.sub (ZoneplatePoint.energy end_)
                                   (ZoneplatePoint.energy start)))
                 (PrimFloat.sub (ZoneplatePoint.energy end_)
                                (ZoneplatePoint.energy start))))
           (PrimFloat.add (ZoneplatePoint.z start)
              (PrimFloat.mul
                 (PrimFloat.div
                    (PrimFloat.sub (ZoneplatePoint.z end_)
                                   (ZoneplatePoint.z start))
                    (PrimFloat.sub (ZoneplatePoint.energy end_)
                                   (ZoneplatePoint.energy start)))
                 (PrimFloat.sub (ZoneplatePoint.energy end_)
                                (ZoneplatePoint.energy start)))))
  /\ (exists zp : Zoneplate.t float,
       Zoneplate.init float_far_start None (Some float_far_end) = Return zp
       /\ float_finite (ZoneplatePoint.x float_far_start)
          && float_finite (ZoneplatePoint.x float_far_end)
          && float_finite (ZoneplatePoint.energy float_far_start)
          && float_finite (ZoneplatePoint.energy float_far_end)
          && float_finite (x (Zoneplate.step zp)) = true
       /\ PrimFloat.eqb
            (x (Zoneplate.position zp (ZoneplatePoint.energy float_far_end)))
            (of_int 0) = true
       /\ PrimFloat.eqb (ZoneplatePoint.x float_far_end) (of_int 1) = true).
Proof.
  split; [|split; [|split]].
  4:{ eexists. split; [vm_compute; reflexivity|].
      repeat split; vm_compute; reflexivity. }
  3:{ intros start end_ zp Hinit.
      rewrite zoneplate_init_two_points in Hinit.
      destruct (is_zero _); [discriminate|].
      inversion Hinit; subst zp; clear Hinit. reflexivity. }
  - intros start end_ Hne.
    assert (HdE : (ZoneplatePoint.energy end_ - ZoneplatePoint.energy start)%Qc
                  <> Q2Qc 0).
    { intros Hz. apply Hne.
      replace (ZoneplatePoint.energy end_)
        with (ZoneplatePoint.energy end_ - ZoneplatePoint.energy start
              + ZoneplatePoint.energy start)%Qc by ring.
      rewrite Hz. ring. }
    pose proof (zoneplate_init_two_points start end_) as Hinit.
    rewrite (Qc_is_zero_sub _ _ Hne) in Hinit.
    eexists. split; [exact Hinit|].
    unfold Zoneplate.position. cbn.
    split; [reflexivity|].
    split; f_equal; field; exact HdE.
  - intros start end_ zp Hinit HE Hstep Hnan.
    assert (Hstart : Zoneplate.start zp = start).
    { rewrite zoneplate_init_two_points in Hinit.
      destruct (is_zero _); [discriminate|].
      now inversion Hinit. }
    apply andb_prop in Hstep. destruct Hstep as [Hstep Hz].
    apply andb_prop in Hstep. destruct Hstep as [Hx Hy].
    apply orb_false_elim in Hnan. destruct Hnan as [Hnan Hnz].
    apply orb_false_elim in Hnan. destruct Hnan as [Hnx Hny].
    unfold Zoneplate.position. rewrite Hstart.
    cbn [x y z add sub mul float_number].
    now rewrite !float_affine_at_start.
Qed.

(** *** Models at other energies *)

(** [x0 + s * d == x0] when [s] is a zero and [d] is finite. *)
Lemma float_zero_step (x0 s d : float) :
  PrimFloat.eqb s PrimFloat.zero = true ->
  float_finite d = true ->
  float_isnan x0 = false ->
  PrimFloat.eqb (PrimFloat.add x0 (PrimFloat.mul s d)) x0 = true.
Proof.
  unfold float_finite, float_isnan. intros Hs Hd Hx.
  rewrite FloatAxioms.eqb_spec in Hs |- *. rewrite add_spec, mul_spec.
  assert (Hzero : exists b, SF64mul (Prim2SF s) (Prim2SF d) = S754_zero b).
  { change (Prim2SF PrimFloat.zero) with (S754_zero false) in Hs.
    unfold SFeqb, SFcompare in Hs.
    destruct (Prim2SF s) as [b|b| |b m e];
      try discriminate; try (destruct b; discriminate).
    destruct (Prim2SF d) as [c|c| |c m e]; try discriminate;
      eexists; reflexivity. }
  destruct Hzero as [b ->].
  unfold SFeqb.
  destruct (Prim2SF x0) as [c|c| |c m e] eqn:Hx0; try discriminate.
  - destruct c, b; reflexivity.
  - cbn. now destruct c.
  - unfold SF64add, SFadd.
    rewrite SFcompare_refl; [reflexivity|discriminate].
Qed.

Lemma Qc_sub_nonzero (a b : Qc) : a <> b -> (a - b)%Qc <> Q2Qc 0.
Proof.
  intros Hne Hz. apply Hne.
  replace a with (a - b + b)%Qc by ring. rewrite Hz. ring.
Qed.

(** X8.  A zoneplate calibrated by [z_step] moves along z only: in exact
    arithmetic its position at any energy is [start] with
    [z_step * (energy - start.energy)] added to z; in [float]s, for a
    finite energy offset and x, y of [start] that are not NaN, x and y
    compare equal to those of [start] and z is that sum as the machine
    rounds it. *)
Theorem zoneplate_z_step_moves_z_only :
  (forall (start : ZoneplatePoint.t Qc) (z_step e : Qc),
     exists zp : Zoneplate.t Qc,
       Zoneplate.init start (Some z_step) None = Return zp
       /\ Zoneplate.position zp e
          = Position (ZoneplatePoint.x start) (ZoneplatePoint.y start)
              (ZoneplatePoint.z start
                 + z_step * (e - ZoneplatePoint.energy start))%Qc)
  /\ (forall (start : ZoneplatePoint.t float) (z_step e : float)
        (zp : Zoneplate.t float),
       Zoneplate.init start (Some z_step) None = Return zp ->
       float_finite (PrimFloat.sub e (ZoneplatePoint.energy start)) = true ->
       float_isnan (ZoneplatePoint.x start)
         || float_isnan (ZoneplatePoint.y start) = false ->
       PrimFloat.eqb (x (Zoneplate.position zp e)) (ZoneplatePoint.x start)
         && PrimFloat.eqb (y (Zoneplate.position zp e)) (ZoneplatePoint.y start)
       = true
       /\ z (Zoneplate.position zp e)
          = PrimFloat.add (ZoneplatePoint.z start)
              (PrimFloat.mul z_step
                 (PrimFloat.sub e (ZoneplatePoint.energy start)))).
Proof.
  split.
  - intros start z_step e. eexists. split; [reflexivity|].
    unfold Zoneplate.position.
    cbn [x y z add sub mul of_int Qc_number Zoneplate.start Zoneplate.step].
    change (Q2Qc (inject_Z 0)) with (Q2Qc 0).
    f_equal; ring.
  - intros start z_step e zp Hinit Hd Hnan.
    cbn in Hinit. inversion Hinit; subst zp; clear Hinit.
    apply orb_false_elim in Hnan. destruct Hnan as [Hnx Hny].
    unfold Zoneplate.position.
    cbn [x y z add sub mul float_number Zoneplate.start Zoneplate.step].
    split; [|reflexivity].
    rewrite !float_zero_step; try assumption; reflexivity.
Qed.

(** X9.  In exact arithmetic the two-point model is the straight line
    through [start] and [end]: at the energy a fraction [t] of the way from
    one to the other, before, between or beyond them, each coordinate is the
    same fraction of the way. *)
Theorem zoneplate_interpolates (start end_ : ZoneplatePoint.t Qc) (t : Qc) :
  ZoneplatePoint.energy end_ <> ZoneplatePoint.energy start ->
  exists zp : Zoneplate.t Qc,
    Zoneplate.init start None (Some end_) = Return zp
    /\ Zoneplate.position zp
         (ZoneplatePoint.energy start
            + t * (ZoneplatePoint.energy end_ - ZoneplatePoint.energy start))%Qc
       = Position
           (ZoneplatePoint.x start
              + t * (ZoneplatePoint.x end_ - ZoneplatePoint.x start))%Qc
           (ZoneplatePoint.y start
              + t * (ZoneplatePoint.y end_ - ZoneplatePoint.y start))%Qc
           (ZoneplatePoint.z start
              + t * (ZoneplatePoint.z end_ - ZoneplatePoint.z start))%Qc.
Proof.
  intros Hne. pose proof (Qc_sub_nonzero _ _ Hne) as HdE.
  pose proof (zoneplate_init_two_points start end_) as Hinit.
  rewrite (Qc_is_zero_sub _ _ Hne) in Hinit.
  eexists. split; [exact Hinit|].
  unfold Zoneplate.position. cbn. f_equal; field; exact HdE.
Qed.

(** X10.  In exact arithmetic it does not matter which of two calibration
    points is passed as [start] and which as [end]: both models are built
    and they predict the same position at every energy. *)
Theorem zoneplate_calibration_order_irrelevant
    (start end_ : ZoneplatePoint.t Qc) (e : Qc) :
  ZoneplatePoint.energy end_ <> ZoneplatePoint.energy start ->
  exists zp zp' : Zoneplate.t Qc,
    Zoneplate.init start None (Some end_) = Return zp
    /\ Zoneplate.init end_ None (Some start) = Return zp'
    /\ Zoneplate.position zp e = Zoneplate.position zp' e.
Proof.
  intros Hne.
  assert (Hne' : ZoneplatePoint.energy start <> ZoneplatePoint.energy end_)
    by (intros Heq; apply Hne; now symmetry).
  pose proof (Qc_sub_nonzero _ _ Hne) as HdE.
  pose proof (Qc_sub_nonzero _ _ Hne') as HdE'.
  pose proof (zoneplate_init_two_points start end_) as Hinit.
  rewrite (Qc_is_zero_sub _ _ Hne) in Hinit.
  pose proof (zoneplate_init_two_points end_ start) as Hinit'.
  rewrite (Qc_is_zero_sub _ _ Hne') in Hinit'.
  eexists. eexists. split; [exact Hinit|]. split; [exact Hinit'|].
  unfold Zoneplate.position. cbn. f_equal; field; split; assumption.
Qed.

(* ================================================================= *)
(** ** sector8_xanes_script *)

Section Sector8_properties.

(** Energies are [int]s, as [range] produces them; the first one is
    [starting_energy].  How numbers print is left open. *)
Context (fmt : PyFormat Z).
Context (str_float : Z -> string).
Context {ident : Type}.
Context (str : ident -> string).
Context (starting_energy : Z).
Context (more_energies : list Z).
Context (zoneplate : Zoneplate.t Z).
Context (detector : Detector.t Z).
Context (sample_positions : list (position Z)).
Context (names : list string).
Context (iterations : list ident).
Context (binning : Z).
Context (exposure : Z).
Context (abba_mode : bool).

Local Abbreviation energies := (starting_energy :: more_energies).
Local Abbreviation fmt_2f := (@fmt_2f Z fmt).
Local Abbreviation s8_warmup := (@Sector8.s8_warmup Z Z_number fmt Z_numpy).
Local Abbreviation warmup_text := (@Sector8.warmup_text Z Z_number fmt).
Local Abbreviation s8_energy_body :=
  (@Sector8.s8_energy_body Z Z_number fmt str_float ident str zoneplate
     detector sample_positions names abba_mode).
Local Abbreviation s8_iteration_body :=
  (@Sector8.s8_iteration_body Z Z_number fmt Z_numpy str_float ident str
     energies zoneplate detector sample_positions names abba_mode).
Local Abbreviation sector8_xanes_script :=
  (@Sector8.sector8_xanes_script Z Z_number fmt Z_numpy str_float ident str
     energies zoneplate detector sample_positions names iterations binning
     exposure abba_mode).

Lemma warmup_arange :
  arange (sub starting_energy (of_int 100)) starting_energy (of_int 2)
  = Sector8.warmup_energies starting_energy.
Proof.
  cbn [arange Z_numpy sub of_int Z_number]. unfold range_step.
  replace (starting_energy - 100 - starting_energy)%Z with (-100)%Z by lia.
  reflexivity.
Qed.

Lemma warmup_energies_int :
  Sector8.warmup_energies starting_energy
  = map (fun k => starting_energy - 100 + 2 * Z.of_nat k)%Z (seq 0 50).
Proof.
  unfold Sector8.warmup_energies. apply map_ext. intros k.
  cbn [add sub mul of_int Z_number]. lia.
Qed.

(** C9.  Every iteration starts with the warm-up: [numpy.arange] yields the
    fifty energies [first - 100], [first - 98], ..., [first - 2], and for
    each the loop writes one [moveto energy] text and nothing else (fifty
    lines, when numbers print without a line break); the main energy loop
    of the iteration starts on the text so extended.  The call runs this
    body once per iteration. *)
Theorem sector8_warmup_sweep :
  arange (sub starting_energy (of_int 100)) starting_energy (of_int 2)
  = map (fun k => starting_energy - 100 + 2 * Z.of_nat k)%Z (seq 0 50)
  /\ (forall dest,
        s8_warmup starting_energy dest
        = dest
            ++ join (map (fun k =>
                            "moveto energy "
                              ++ fmt_2f (starting_energy - 100 + 2 * Z.of_nat k)%Z
                              ++ nl)
                         (seq 0 50)))
  /\ ((forall n, has_nl (fmt_2f n) = false) ->
      lines (warmup_text starting_energy)
      = map (fun k => "moveto energy "
                        ++ fmt_2f (starting_energy - 100 + 2 * Z.of_nat k)%Z)
            (seq 0 50))
  /\ (forall dest iteration,
        s8_iteration_body starting_energy dest iteration
        = let '((_, dest'), e) :=
            for_each (s8_energy_body iteration) energies
              (false, dest ++ warmup_text starting_energy) in
          (dest', e))
  /\ (forall dest0,
        sector8_xanes_script dest0
        = for_each (s8_iteration_body starting_energy) iterations
            (dest0 ++ "setbinning " ++ str_int binning ++ nl
                   ++ "setexp " ++ str_int exposure ++ nl)).
Proof.
  assert (Htext :
    warmup_text starting_energy
    = join (map (fun k =>
                   "moveto energy "
                     ++ fmt_2f (starting_energy - 100 + 2 * Z.of_nat k)%Z
                     ++ nl)
                (seq 0 50))).
  { unfold Sector8.warmup_text. now rewrite warmup_energies_int, map_map. }
  assert (Hwarm : forall dest,
    s8_warmup starting_energy dest = dest ++ warmup_text starting_energy).
  { intros dest. unfold Sector8.s8_warmup, Sector8.warmup_text.
    rewrite warmup_arange. apply fold_left_write. }
  split; [now rewrite warmup_arange, warmup_energies_int|].
  split; [intros dest; now rewrite Hwarm, Htext|].
  split; [|split].
  - intros Hfmt. rewrite Htext.
    change (join (map (fun k => "moveto energy "
                         ++ fmt_2f (starting_energy - 100 + 2 * Z.of_nat k)%Z
                         ++ nl) (seq 0 50)))
      with (unlines
              (map (fun k => "moveto energy "
                      ++ fmt_2f (starting_energy - 100 + 2 * Z.of_nat k)%Z)
                   (seq 0 50))).
    apply lines_unlines. apply Forall_map, Forall_forall. intros k _.
    now rewrite has_nl_app, Hfmt.
  - intros dest iteration. unfold Sector8.s8_iteration_body.
    now rewrite Hwarm.
  - intros dest0. unfold Sector8.sector8_xanes_script, write.
    cbn [getitem]. now rewrite !append_assoc.
Qed.

End Sector8_properties.

(** *** Splitting at the decimal point *)

Lemma split_no_dot (s : string) : has_dot s = false -> split "." s = [s].
Proof.
  induction s as [|c s IH]; [reflexivity|].
  cbn [has_dot split]. intros Hdot. apply orb_false_elim in Hdot.
  destruct Hdot as [Hc Hs]. now rewrite Hc, (IH Hs).
Qed.

Lemma split_at_dot (a b : string) :
  has_dot a = false -> split "." (a ++ "." ++ b) = a :: split "." b.
Proof.
  induction a as [|c a IH]; [reflexivity|].
  cbn [has_dot]. intros Hdot. apply orb_false_elim in Hdot.
  destruct Hdot as [Hc Ha].
  change (String c a ++ "." ++ b) with (String c (a ++ "." ++ b)).
  cbn [split]. now rewrite Hc, (IH Ha).
Qed.

Lemma split_has_dot (s : string) :
  has_dot s = true -> exists a b rest, split "." s = a :: b :: rest.
Proof.
  induction s as [|c s IH]; [discriminate|].
  cbn [has_dot split]. destruct (Ascii.eqb c ".").
  - intros _. destruct s as [|c' s]; [now exists "", "", []|].
    destruct (split "." (String c' s)) as [|b rest] eqn:Hsplit.
    + cbn [split] in Hsplit.
      destruct (Ascii.eqb c' "."); [discriminate|].
      destruct (split "." s); discriminate.
    + now exists "", b, rest.
  - cbn [orb]. intros Hs. destruct (IH Hs) as (a & b & rest & ->).
    now exists (String c a), b, rest.
Qed.

Lemma split_no_nl (s : string) :
  has_nl s = false -> Forall (fun p => has_nl p = false) (split "." s).
Proof.
  induction s as [|c s IH]; [now repeat constructor|].
  cbn [has_nl split]. intros Hnl. apply orb_false_elim in Hnl.
  destruct Hnl as [Hc Hs]. specialize (IH Hs).
  destruct (Ascii.eqb c "."); [now constructor|].
  destruct (split "." s) as [|p ps].
  - repeat constructor. cbn [has_nl]. now rewrite Hc.
  - inversion IH; subst. constructor; [|assumption].
    cbn [has_nl]. now rewrite Hc.
Qed.

(** *** Indexing *)

Lemma getitem_nth {A} (l : list A) (i : nat) (a : A) :
  nth_error l i = Some a -> getitem l (Z.of_nat i) = Return a.
Proof.
  intros Hnth. unfold getitem.
  assert (Hpos : (Z.of_nat i <? 0)%Z = false) by (apply Z.ltb_ge; lia).
  cbv zeta. rewrite !Hpos. now rewrite Nat2Z.id, Hnth.
Qed.

Lemma getitem_beyond {A} (l : list A) (i : nat) :
  (List.length l <= i)%nat -> getitem l (Z.of_nat i) = Raise IndexError.
Proof.
  intros Hlen. unfold getitem.
  assert (Hpos : (Z.of_nat i <? 0)%Z = false) by (apply Z.ltb_ge; lia).
  cbv zeta. rewrite !Hpos, Nat2Z.id.
  now apply nth_error_None in Hlen as ->.
Qed.

Lemma range_0_nat (n : nat) :
  range 0 (Z.of_nat n) = map Z.of_nat (seq 0 n).
Proof.
  unfold range. rewrite Z.sub_0_r, Nat2Z.id. reflexivity.
Qed.

Lemma range_step_down (n : nat) :
  range_step (Z.of_nat n - 1) (-1) (-1) = rev (range 0 (Z.of_nat n)).
Proof.
  unfold range_step.
  replace (Z.to_nat (- ((Z.of_nat n - 1 - -1) / -1))) with n.
  2:{ replace (Z.of_nat n - 1 - -1) with (- Z.of_nat n * -1) by lia.
      rewrite Z.div_mul by lia. lia. }
  rewrite range_0_nat.
  induction n as [|n IH]; [reflexivity|].
  rewrite seq_S at 2. rewrite map_app, rev_app_distr. cbn [map rev app plus].
  rewrite <- IH. cbn [seq map]. f_equal; [lia|].
  rewrite <- !seq_shift, !map_map. apply map_ext. intros k. lia.
Qed.

Lemma seq_nth_error {A} (l : list A) :
  forall pre : list A,
    Forall2 (fun i a => nth_error (pre ++ l)%list i = Some a)
            (seq (List.length pre) (List.length l)) l.
Proof.
  induction l as [|a l IH]; intros pre; [constructor|].
  cbn [List.length seq]. constructor.
  - rewrite nth_error_app2 by lia. now rewrite Nat.sub_diag.
  - specialize (IH (pre ++ [a])%list).
    rewrite <- app_assoc, length_app in IH. cbn [List.length app] in IH.
    now rewrite Nat.add_1_r in IH.
Qed.

Lemma Forall2_rev_both {A B} (R : A -> B -> Prop) (l : list A) (m : list B) :
  Forall2 R l m -> Forall2 R (rev l) (rev m).
Proof.
  induction 1 as [|a b l m Hab _ IH]; [constructor|].
  cbn [rev]. apply Forall2_app; [assumption|now repeat constructor].
Qed.

Lemma Forall2_map_l {A B C} (R : B -> C -> Prop) (g : A -> B)
    (l : list A) (m : list C) :
  Forall2 (fun a c => R (g a) c) l m -> Forall2 R (map g l) m.
Proof. induction 1; now constructor. Qed.

(** *** Loops *)

Lemma for_each_raises_only {A S} (P : exn -> Prop)
    (body : S -> A -> S * option exn) :
  (forall s a s' e, body s a = (s', Some e) -> P e) ->
  forall l s s' e, for_each body l s = (s', Some e) -> P e.
Proof.
  intros Hbody. induction l as [|a l IH]; intros s s' e; [discriminate|].
  cbn [for_each]. destruct (body s a) as [s1 [e1|]] eqn:Hstep.
  - intros Heq. inversion Heq; subst. eauto.
  - apply IH.
Qed.

Lemma for_each_raises_at {A S} (body : S -> A -> S * option exn) (a : A) :
  (forall s, exists s' e, body s a = (s', Some e)) ->
  forall l s, In a l -> exists s' e, for_each body l s = (s', Some e).
Proof.
  intros Hbody. induction l as [|b l IH]; intros s; [intros []|].
  intros Hin. cbn [for_each].
  destruct (body s b) as [s1 [e1|]] eqn:Hstep; [now exists s1, e1|].
  destruct Hin as [->|Hin]; [|now apply IH].
  destruct (Hbody s) as (s' & e & Heq). congruence.
Qed.

Lemma forallb_false_exists {A} (f : A -> bool) (l : list A) :
  forallb f l = false -> exists a, In a l /\ f a = false.
Proof.
  induction l as [|a l IH]; [discriminate|].
  cbn [forallb]. destruct (f a) eqn:Hfa.
  - cbn [andb]. intros Hl. destruct (IH Hl) as (b & Hin & Hfb).
    exists b. split; [now right|assumption].
  - intros _. exists a. split; [now left|assumption].
Qed.

Lemma nth_error_combine {A B} (l : list A) (m : list B) :
  forall i a b,
    nth_error (combine l m) i = Some (a, b) ->
    nth_error l i = Some a /\ nth_error m i = Some b.
Proof.
  revert m. induction l as [|x l IH]; intros [|y m] [|i] a b;
    cbn [combine nth_error]; try discriminate.
  - intros Heq. inversion Heq; subst. now split.
  - apply IH.
Qed.

Lemma getitem_raises {A} (l : list A) (i : Z) (e : exn) :
  getitem l i = Raise e -> e = IndexError.
Proof.
  unfold getitem. cbv zeta.
  destruct (_ <? 0)%Z; [intros Heq; now inversion Heq|].
  destruct (nth_error _ _); [discriminate|].
  intros Heq. now inversion Heq.
Qed.

Lemma reads_first {A} (f : string -> list string) (l : list A)
    (g : A -> string) (ns : list string) :
  (l = [] -> ns = []) ->
  (forall a, reads f (g a) ns) ->
  reads f match l with [] => "" | a :: _ => g a end ns.
Proof.
  intros Hnone Hg. destruct l as [|a l]; [|apply Hg].
  rewrite Hnone by reflexivity. apply reads_nothing.
Qed.

Section Sector8_script.
Context {T : Type} `{PyNumber T} `{PyFormat T} `{NumPy T}.
Context (str_float : T -> string).
Context {ident : Type}.
Context (str : ident -> string).
Context (energies : list T).
Context (zoneplate : Zoneplate.t T).
Context (detector : Detector.t T).
Context (sample_positions : list (position T)).
Context (names : list string).
Context (iterations : list ident).
Context (binning exposure : Z).
Context (abba_mode : bool).

Local Abbreviation energy_str := (Sector8.energy_str str_float).
Local Abbreviation energy_label := (Sector8.energy_label str_float).
Local Abbreviation dotted := (Sector8.dotted str_float).
Local Abbreviation stops := (Sector8.stops sample_positions names).
Local Abbreviation visits :=
  (Sector8.visits sample_positions names abba_mode).
Local Abbreviation frame_name := (Sector8.frame_name str_float str).
Local Abbreviation frame_text := (Sector8.frame_text str_float str).
Local Abbreviation energy_text :=
  (Sector8.energy_text str_float str zoneplate detector sample_positions
     names abba_mode).
Local Abbreviation approach_text := (Sector8.approach_text (T := T)).
Local Abbreviation iteration_text :=
  (Sector8.iteration_text str_float str energies zoneplate detector
     sample_positions names abba_mode).
Local Abbreviation script_text :=
  (Sector8.script_text str_float str energies zoneplate detector
     sample_positions names iterations binning exposure abba_mode).
Local Abbreviation frames :=
  (Sector8.frames str_float str energies sample_positions names iterations
     abba_mode).
Local Abbreviation completes :=
  (Sector8.completes str_float energies sample_positions names iterations).
Local Abbreviation s8_position_body :=
  (Sector8.s8_position_body str_float str sample_positions names).
Local Abbreviation s8_energy_body :=
  (Sector8.s8_energy_body str_float str zoneplate detector sample_positions
     names abba_mode).
Local Abbreviation s8_iteration_body :=
  (Sector8.s8_iteration_body str_float str energies zoneplate detector
     sample_positions names abba_mode).
Local Abbreviation sector8_xanes_script :=
  (Sector8.sector8_xanes_script str_float str energies zoneplate detector
     sample_positions names iterations binning exposure abba_mode).

(** *** The energy in a file name *)

Lemma energy_str_dotted (E : T) :
  dotted E = true -> energy_str E = Return (energy_label E).
Proof.
  unfold Sector8.dotted, Sector8.energy_label, Sector8.energy_str.
  intros Hdot. now destruct (split_has_dot _ Hdot) as (a & b & rest & ->).
Qed.

Lemma energy_str_undotted (E : T) :
  dotted E = false -> energy_str E = Raise IndexError.
Proof.
  unfold Sector8.dotted, Sector8.energy_str.
  intros Hdot. now rewrite split_no_dot.
Qed.

Lemma energy_str_raises (E : T) (e : exn) :
  energy_str E = Raise e -> e = IndexError.
Proof.
  unfold Sector8.energy_str.
  destruct (split "." (str_float E)) as [|a [|b rest]];
    try discriminate; intros Heq; now inversion Heq.
Qed.

(** X11.  The energy part of a file name: when [str(float(energy))] has no
    decimal point (as in [1e+16], [inf] or [nan]) formatting the name raises
    [IndexError]; when it is [a.b] the part is [a_b]. *)
Theorem sector8_energy_str_at_dot (E : T) :
  (has_dot (str_float E) = false -> energy_str E = Raise IndexError)
  /\ (forall a b,
        str_float E = a ++ "." ++ b ->
        has_dot a = false -> has_dot b = false ->
        energy_str E = Return (a ++ "_" ++ b)).
Proof.
  split; [apply energy_str_undotted|].
  intros a b Htext Ha Hb. unfold Sector8.energy_str.
  now rewrite Htext, (split_at_dot a b Ha), (split_no_dot b Hb).
Qed.

(** *** The loops of a call that completes *)

Lemma s8_position_step (iteration : ident) (E : T) (dest : string) (i : nat)
    (stop : position T * string) :
  nth_error stops i = Some stop ->
  dotted E = true ->
  s8_position_body iteration E dest (Z.of_nat i)
  = (dest ++ frame_text iteration E stop, None).
Proof.
  intros Hnth Hdot. destruct stop as [p name].
  apply nth_error_combine in Hnth. destruct Hnth as [Hp Hname].
  unfold Sector8.s8_position_body.
  rewrite (getitem_nth _ _ _ Hp), (getitem_nth _ _ _ Hname).
  rewrite (energy_str_dotted E Hdot). unfold write.
  f_equal. unfold Sector8.frame_text, Sector8.frame_name. cbn [fst snd].
  text_eq.
Qed.

Lemma s8_positions_loop (iteration : ident) (E : T) (idxs : list nat)
    (sts : list (position T * string)) :
  Forall2 (fun i stop => nth_error stops i = Some stop) idxs sts ->
  dotted E = true ->
  forall dest,
    for_each (s8_position_body iteration E) (map Z.of_nat idxs) dest
    = (dest ++ join (map (frame_text iteration E) sts), None).
Proof.
  intros Hall Hdot.
  induction Hall as [|i stop idxs sts Hnth _ IH]; intros dest.
  - cbn [map for_each join fold_right]. now rewrite append_empty_r.
  - cbn [map for_each]. rewrite (s8_position_step _ _ _ _ _ Hnth Hdot), IH.
    f_equal. change (join (?a :: ?l)) with (a ++ join l). text_eq.
Qed.

Lemma s8_stops_length :
  (List.length sample_positions <= List.length names)%nat ->
  List.length stops = List.length sample_positions.
Proof.
  intros Hlen. unfold Sector8.stops. rewrite length_combine. lia.
Qed.

Lemma s8_energy_step (iteration : ident) (k : nat) (dest : string) (E : T) :
  (List.length sample_positions <= List.length names)%nat ->
  sample_positions = [] \/ dotted E = true ->
  s8_energy_body iteration (Nat.odd k, dest) E
  = ((Nat.odd (S k), dest ++ energy_text iteration (k, E)), None).
Proof.
  intros Hlen Hok. unfold Sector8.s8_energy_body, write.
  rewrite Nat.odd_succ, <- Nat.negb_odd.
  unfold Sector8.energy_text, Sector8.visits. cbn [fst snd].
  destruct Hok as [Hnone|Hdot].
  - unfold Sector8.stops. rewrite Hnone. cbn [List.length combine rev].
    change (range_step (Z.of_nat 0 - 1) (-1) (-1)) with (@nil Z).
    change (range 0 (Z.of_nat 0)) with (@nil Z).
    destruct (Nat.odd k && abba_mode); cbn [for_each map join fold_right];
      f_equal; f_equal; text_eq.
  - pose proof (seq_nth_error stops []) as Hall.
    cbn [List.length app] in Hall. rewrite (s8_stops_length Hlen) in Hall.
    rewrite range_step_down, range_0_nat, <- map_rev.
    destruct (Nat.odd k && abba_mode).
    + rewrite (s8_positions_loop iteration E _ _ (Forall2_rev_both _ _ _ Hall) Hdot).
      f_equal. f_equal. text_eq.
    + rewrite (s8_positions_loop iteration E _ _ Hall Hdot).
      f_equal. f_equal. text_eq.
Qed.

Lemma s8_energy_loop (iteration : ident) :
  (List.length sample_positions <= List.length names)%nat ->
  forall (es : list T) (k : nat) (dest : string),
    sample_positions = [] \/ forallb dotted es = true ->
    for_each (s8_energy_body iteration) es (Nat.odd k, dest)
    = ((Nat.odd (k + List.length es),
        dest ++ join (map (energy_text iteration)
                          (combine (seq k (List.length es)) es))),
       None).
Proof.
  intros Hlen. induction es as [|E es IH]; intros k dest Hok.
  - cbn [for_each List.length seq combine map join fold_right].
    now rewrite Nat.add_0_r, append_empty_r.
  - cbn [for_each List.length seq combine map].
    rewrite s8_energy_step; [|assumption|].
    2:{ destruct Hok as [Hnone|Hall]; [now left|right].
        cbn [forallb] in Hall. now apply andb_prop in Hall. }
    rewrite IH.
    2:{ destruct Hok as [Hnone|Hall]; [now left|right].
        cbn [forallb] in Hall. now apply andb_prop in Hall. }
    rewrite Nat.add_succ_r. cbn [plus]. f_equal. f_equal.
    change (join (?a :: ?l)) with (a ++ join l). text_eq.
Qed.

Lemma s8_warmup_text (starting_energy : T) (dest : string) :
  Sector8.s8_warmup starting_energy dest
  = dest ++ approach_text starting_energy.
Proof. apply fold_left_write. Qed.

Lemma s8_iteration_step (starting_energy : T) (dest : string)
    (iteration : ident) :
  (List.length sample_positions <= List.length names)%nat ->
  sample_positions = [] \/ forallb dotted energies = true ->
  s8_iteration_body starting_energy dest iteration
  = (dest ++ iteration_text starting_energy iteration, None).
Proof.
  intros Hlen Hok. unfold Sector8.s8_iteration_body.
  rewrite s8_warmup_text.
  change false with (Nat.odd 0). rewrite (s8_energy_loop iteration Hlen _ _ _ Hok).
  f_equal. unfold Sector8.iteration_text. text_eq.
Qed.

Lemma s8_iteration_loop (starting_energy : T) :
  (List.length sample_positions <= List.length names)%nat ->
  sample_positions = [] \/ forallb dotted energies = true ->
  forall (its : list ident) (dest : string),
    for_each (s8_iteration_body starting_energy) its dest
    = (dest ++ join (map (iteration_text starting_energy) its), None).
Proof.
  intros Hlen Hok. induction its as [|iteration its IH]; intros dest.
  - cbn [for_each map join fold_right]. now rewrite append_empty_r.
  - cbn [for_each map]. rewrite (s8_iteration_step _ _ _ Hlen Hok), IH.
    f_equal. change (join (?a :: ?l)) with (a ++ join l). text_eq.
Qed.

Lemma s8_completes_cases :
  completes = true ->
  exists E0 more,
    energies = E0 :: more
    /\ (iterations = []
        \/ (List.length sample_positions <= List.length names)%nat
           /\ (sample_positions = [] \/ forallb dotted energies = true)).
Proof.
  unfold Sector8.completes.
  destruct energies as [|E0 more] eqn:Hes; [discriminate|].
  intros Hc. exists E0, more. split; [reflexivity|].
  destruct iterations as [|it its]; [now left|right].
  destruct sample_positions as [|p ps].
  - split; [cbn; lia|now left].
  - apply andb_prop in Hc. destruct Hc as [Hlen Hdot].
    split; [now apply Nat.leb_le|now right].
Qed.

Lemma s8_completes (dest0 : string) :
  completes = true ->
  sector8_xanes_script dest0 = (dest0 ++ script_text, None).
Proof.
  intros Hc. destruct (s8_completes_cases Hc) as (E0 & more & Hes & Hrun).
  unfold Sector8.sector8_xanes_script, Sector8.script_text, write.
  rewrite Hes. change (getitem (E0 :: more) 0) with (Return E0).
  rewrite <- Hes.
  destruct Hrun as [Hnone|[Hlen Hok]].
  - rewrite Hnone. cbn [for_each map join fold_right]. f_equal. text_eq.
  - rewrite (s8_iteration_loop E0 Hlen Hok). f_equal. text_eq.
Qed.

(** X12.  A call that [completes] returns, and has appended to [dest] the
    two settings and then, per iteration, the approach from below followed
    for each energy by its three moves and the four lines of every frame:
    the positions in order, under [abba_mode] backwards at every second
    energy of the iteration, each with the name at its own index; every
    iteration starts forwards. *)
Theorem sector8_script_text (dest0 : string) :
  completes = true ->
  sector8_xanes_script dest0 = (dest0 ++ script_text, None).
Proof. apply s8_completes. Qed.

(** *** The calls that do not complete *)

Lemma position_body_raises (iteration : ident) (E : T) (dest : string)
    (idx : Z) (dest' : string) (e : exn) :
  s8_position_body iteration E dest idx = (dest', Some e) -> e = IndexError.
Proof.
  unfold Sector8.s8_position_body.
  destruct (getitem sample_positions idx) as [p|e1] eqn:Hp.
  - destruct (getitem names idx) as [name|e2] eqn:Hname.
    + destruct (energy_str E) as [label|e3] eqn:Hlabel; [discriminate|].
      intros Heq. inversion Heq; subst. now apply energy_str_raises in Hlabel.
    + intros Heq. inversion Heq; subst. now apply getitem_raises in Hname.
  - intros Heq. inversion Heq; subst. now apply getitem_raises in Hp.
Qed.

Lemma energy_body_raises (iteration : ident) (st : bool * string) (E : T)
    (st' : bool * string) (e : exn) :
  s8_energy_body iteration st E = (st', Some e) -> e = IndexError.
Proof.
  unfold Sector8.s8_energy_body. destruct st as [reverse dest].
  destruct (for_each _ _ _) as [dest' [e'|]] eqn:Hloop; [|discriminate].
  intros Heq. inversion Heq; subst.
  apply (for_each_raises_only (fun e => e = IndexError) _
           (position_body_raises iteration E) _ _ _ _ Hloop).
Qed.

Lemma iteration_body_raises (starting_energy : T) (dest : string)
    (iteration : ident) (dest' : string) (e : exn) :
  s8_iteration_body starting_energy dest iteration = (dest', Some e) ->
  e = IndexError.
Proof.
  unfold Sector8.s8_iteration_body.
  destruct (for_each _ _ _) as [[reverse dest1] [e'|]] eqn:Hloop;
    [|discriminate].
  intros Heq. inversion Heq; subst.
  apply (for_each_raises_only (fun e => e = IndexError) _
           (energy_body_raises iteration) _ _ _ _ Hloop).
Qed.

Lemma s8_raises_only (dest0 dest' : string) (e : exn) :
  sector8_xanes_script dest0 = (dest', Some e) -> e = IndexError.
Proof.
  unfold Sector8.sector8_xanes_script.
  destruct (getitem energies 0) as [E0|e0] eqn:Hfirst.
  - apply (for_each_raises_only (fun e => e = IndexError) _
             (iteration_body_raises E0)).
  - intros Heq. inversion Heq; subst. now apply getitem_raises in Hfirst.
Qed.

(** An energy at which the inner loop stops, whichever way it runs. *)
Lemma position_indexes_in (reverse : bool) (i : nat) :
  (i < List.length sample_positions)%nat ->
  In (Z.of_nat i)
     (if reverse && abba_mode
      then range_step (Z.of_nat (List.length sample_positions) - 1) (-1) (-1)
      else range 0 (Z.of_nat (List.length sample_positions))).
Proof.
  intros Hi.
  assert (Hin : In (Z.of_nat i)
                   (range 0 (Z.of_nat (List.length sample_positions)))).
  { rewrite range_0_nat. apply in_map, in_seq. lia. }
  destruct (reverse && abba_mode); [|assumption].
  rewrite range_step_down. now apply -> in_rev.
Qed.

Lemma energy_body_stops (iteration : ident) (E : T) :
  sample_positions <> [] ->
  (List.length names < List.length sample_positions)%nat
  \/ dotted E = false ->
  forall st, exists st' e, s8_energy_body iteration st E = (st', Some e).
Proof.
  intros Hsome Hbad [reverse dest]. unfold Sector8.s8_energy_body.
  assert (Hloop : forall dest1, exists dest' e,
    for_each (s8_position_body iteration E)
      (if reverse && abba_mode
       then range_step (Z.of_nat (List.length sample_positions) - 1) (-1) (-1)
       else range 0 (Z.of_nat (List.length sample_positions)))
      dest1 = (dest', Some e)).
  { destruct Hbad as [Hshort|Hdot].
    - intros dest1.
      apply (for_each_raises_at _ (Z.of_nat (List.length names)));
        [|now apply position_indexes_in].
      intros s. unfold Sector8.s8_position_body.
      destruct (nth_error sample_positions (List.length names)) as [p|] eqn:Hp.
      + rewrite (getitem_nth _ _ _ Hp), getitem_beyond by lia. eauto.
      + apply nth_error_None in Hp. lia.
    - intros dest1.
      apply (for_each_raises_at _ (Z.of_nat 0)).
      + intros s. unfold Sector8.s8_position_body.
        destruct (getitem sample_positions (Z.of_nat 0)); [|eauto].
        destruct (getitem names (Z.of_nat 0)); [|eauto].
        rewrite (energy_str_undotted E Hdot). eauto.
      + apply position_indexes_in.
        destruct sample_positions; [congruence|cbn; lia]. }
  destruct (Hloop
    (write
       (write (write dest ("moveto energy " ++ fmt_2f E ++ nl))
          ("moveto zpz "
             ++ fmt_2f (z (Zoneplate.position zoneplate E)) ++ nl))
       ("moveto detz "
          ++ fmt_2f (z (Detector.position detector E)) ++ nl)))
    as (dest' & e & ->).
  eauto.
Qed.

Lemma s8_stops (dest0 : string) :
  completes = false ->
  exists dest' e, sector8_xanes_script dest0 = (dest', Some e).
Proof.
  unfold Sector8.completes, Sector8.sector8_xanes_script.
  destruct energies as [|E0 more] eqn:Hes; [intros _; cbn; eauto|].
  rewrite <- Hes. destruct iterations as [|it its]; [discriminate|].
  destruct sample_positions as [|p ps] eqn:Hps; [discriminate|].
  rewrite <- Hps. intros Hc.
  assert (Hsome : sample_positions <> []) by (rewrite Hps; discriminate).
  assert (Hbad : exists E, In E energies
    /\ ((List.length names < List.length sample_positions)%nat
        \/ dotted E = false)).
  { apply andb_false_iff in Hc. destruct Hc as [Hlen|Hdot].
    - exists E0. split; [rewrite Hes; now left|left].
      apply Nat.leb_gt in Hlen. exact Hlen.
    - destruct (forallb_false_exists _ _ Hdot) as (E & Hin & HE).
      exists E. split; [assumption|now right]. }
  destruct Hbad as (E & Hin & HE).
  assert (Hfirst : getitem energies 0 = Return E0) by now rewrite Hes.
  rewrite Hfirst.
  cbn [for_each]. unfold Sector8.s8_iteration_body at 1.
  destruct (for_each_raises_at _ E (energy_body_stops it E Hsome HE)
              energies
              (false,
               Sector8.s8_warmup E0
                 (write (write dest0 ("setbinning " ++ str_int binning ++ nl))
                        ("setexp " ++ str_int exposure ++ nl)))
              Hin)
    as ([reverse dest'] & e & ->).
  eauto.
Qed.

(** X13.  The call fails exactly when it does not [completes], and then
    with [IndexError]: there is no first energy, or there is a frame to
    collect and a position has no name or an energy prints without a
    decimal point. *)
Theorem sector8_raises_index_error (dest0 : string) :
  snd (sector8_xanes_script dest0)
  = if completes then None else Some IndexError.
Proof.
  destruct completes eqn:Hc.
  - now rewrite (s8_completes dest0 Hc).
  - destruct (s8_stops dest0 Hc) as (dest' & e & Heq).
    rewrite Heq. cbn [snd]. f_equal. exact (s8_raises_only _ _ _ Heq).
Qed.

(** *** The frames of a script *)

Hypothesis fmt_2f_no_nl : forall n : T, has_nl (fmt_2f n) = false.
Hypothesis str_float_no_nl :
  forall E, In E energies -> has_nl (str_float E) = false.
Hypothesis str_no_nl :
  forall iteration, In iteration iterations -> has_nl (str iteration) = false.
Hypothesis names_no_nl : forall name, In name names -> has_nl name = false.

Lemma energy_label_no_nl (E : T) :
  In E energies -> has_nl (energy_label E) = false.
Proof.
  intros HE. unfold Sector8.energy_label, Sector8.energy_str.
  pose proof (split_no_nl _ (str_float_no_nl E HE)) as Hparts.
  destruct (split "." (str_float E)) as [|a [|b rest]]; try reflexivity.
  inversion Hparts as [|? ? Ha Hrest]; subst.
  inversion Hrest as [|? ? Hb _]; subst.
  now rewrite !has_nl_app, Ha, Hb.
Qed.

Lemma frame_name_no_nl (iteration : ident) (E : T) (name : string) :
  In iteration iterations -> In E energies -> In name names ->
  has_nl (frame_name iteration E name) = false.
Proof.
  intros Hit HE Hname. unfold Sector8.frame_name.
  now rewrite !has_nl_app, names_no_nl, str_no_nl, energy_label_no_nl.
Qed.

Lemma reads_frame_text (iteration : ident) (E : T)
    (stop : position T * string) :
  In iteration iterations -> In E energies -> In (snd stop) names ->
  reads collected_by (frame_text iteration E stop)
        [frame_name iteration E (snd stop)].
Proof.
  intros Hit HE Hname. unfold Sector8.frame_text.
  apply reads_skip2;
    [now rewrite has_nl_app, fmt_2f_no_nl|reflexivity|].
  apply reads_skip2;
    [now rewrite has_nl_app, fmt_2f_no_nl|reflexivity|].
  apply reads_skip2;
    [now rewrite has_nl_app, fmt_2f_no_nl|reflexivity|].
  apply (reads_line_as _ _
           ("collect " ++ frame_name iteration E (snd stop))).
  - text_eq.
  - now rewrite has_nl_app, frame_name_no_nl.
  - reflexivity.
Qed.

Lemma s8_visits_named (k : nat) (stop : position T * string) :
  In stop (visits k) -> In (snd stop) names.
Proof.
  unfold Sector8.visits, Sector8.stops. destruct stop as [p name].
  destruct (Nat.odd k && abba_mode); intros Hin;
    [apply in_rev in Hin|]; now apply in_combine_r in Hin.
Qed.

Lemma reads_energy_text (iteration : ident) (kE : nat * T) :
  In iteration iterations -> In (snd kE) energies ->
  reads collected_by (energy_text iteration kE)
        (map (fun stop => frame_name iteration (snd kE) (snd stop))
             (visits (fst kE))).
Proof.
  intros Hit HE. unfold Sector8.energy_text.
  apply reads_skip2;
    [now rewrite has_nl_app, fmt_2f_no_nl|reflexivity|].
  apply reads_skip2;
    [now rewrite has_nl_app, fmt_2f_no_nl|reflexivity|].
  apply reads_skip2;
    [now rewrite has_nl_app, fmt_2f_no_nl|reflexivity|].
  eapply reads_as; [|apply flat_map_singleton].
  apply reads_join_in. intros stop Hstop.
  apply reads_frame_text; [assumption|assumption|].
  now apply s8_visits_named in Hstop.
Qed.

Lemma reads_approach_text (starting_energy : T) :
  reads collected_by (approach_text starting_energy) [].
Proof.
  unfold Sector8.approach_text.
  eapply reads_as;
    [apply reads_join with (h := fun _ => [])|apply flat_map_nothing].
  intros energy.
  apply reads_skip2_end;
    [now rewrite has_nl_app, fmt_2f_no_nl|reflexivity].
Qed.

Lemma reads_iteration_text (starting_energy : T) (iteration : ident) :
  In iteration iterations ->
  reads collected_by (iteration_text starting_energy iteration)
        (flat_map
           (fun kE =>
              map (fun stop => frame_name iteration (snd kE) (snd stop))
                  (visits (fst kE)))
           (combine (seq 0 (List.length energies)) energies)).
Proof.
  intros Hit. unfold Sector8.iteration_text.
  eapply reads_app_as;
    [apply reads_approach_text| |reflexivity].
  apply reads_join_in. intros [k E] HkE.
  apply reads_energy_text; [assumption|].
  now apply in_combine_r in HkE.
Qed.

Lemma reads_script_text : reads collected_by script_text frames.
Proof.
  unfold Sector8.script_text, Sector8.frames.
  apply reads_skip2;
    [now rewrite has_nl_app, str_int_no_nl|reflexivity|].
  apply reads_skip2;
    [now rewrite has_nl_app, str_int_no_nl|reflexivity|].
  apply reads_first.
  - intros ->. cbn [List.length seq combine flat_map]. apply flat_map_nothing.
  - intros E0. apply reads_join_in. intros iteration Hit.
    now apply reads_iteration_text.
Qed.

Lemma s8_collect_filenames :
  completes = true ->
  collect_filenames (fst (sector8_xanes_script "")) = frames.
Proof.
  intros Hc. rewrite (s8_completes "" Hc). cbn [fst].
  rewrite append_empty_l. apply reads_all, reads_script_text.
Qed.

End Sector8_script.

(** X14.  Under [abba_mode] a script that completes collects the frames it
    collects without it, in another order: the [collect] lines of the two
    scripts name the same files, each as often. *)
Theorem sector8_abba_same_frames {T : Type} `{PyNumber T} `{PyFormat T}
    `{NumPy T} (str_float : T -> string) {ident : Type}
    (str : ident -> string) (energies : list T)
    (zoneplate : Zoneplate.t T) (detector : Detector.t T)
    (sample_positions : list (position T)) (names : list string)
    (iterations : list ident) (binning exposure : Z) :
  Sector8.completes str_float energies sample_positions names iterations
  = true ->
  (forall n : T, has_nl (fmt_2f n) = false) ->
  (forall E, In E energies -> has_nl (str_float E) = false) ->
  (forall iteration,
     In iteration iterations -> has_nl (str iteration) = false) ->
  (forall name, In name names -> has_nl name = false) ->
  Permutation
    (collect_filenames
       (fst (Sector8.sector8_xanes_script str_float str energies zoneplate
               detector sample_positions names iterations binning exposure
               true "")))
    (collect_filenames
       (fst (Sector8.sector8_xanes_script str_float str energies zoneplate
               detector sample_positions names iterations binning exposure
               false ""))).
Proof.
  intros Hc Hfmt Hfloat Hstr Hnames.
  rewrite !s8_collect_filenames by assumption.
  unfold Sector8.frames.
  apply flat_map_permutation. intros iteration.
  apply flat_map_permutation. intros [k E].
  unfold Sector8.visits. cbn [fst snd]. rewrite andb_false_r.
  destruct (Nat.odd k && true); [|reflexivity].
  apply Permutation_map. symmetry. apply Permutation_rev.
Qed.

(* ================================================================= *)
(** ** The scripts at concrete calls *)

(** C1 (the code departs from it).  In the scenario of the specification,
    run with [abba_mode], the script collects the reference frame of the
    second energy after the sample frames, while ScanInfo lists it before
    them. *)
Theorem ssrl6_scaninfo_order_under_abba :
  collect_filenames (out_dest (scenario ["sample1"] 0 0 true))
  = [ "ref_sample1_08950.0_eV_000of001.xrm";
      "sample1_fov0_08950.0_eV_000of002.xrm";
      "sample1_fov0_08950.0_eV_001of002.xrm";
      "sample1_fov1_08950.0_eV_000of002.xrm";
      "sample1_fov1_08950.0_eV_001of002.xrm";
      "sample1_fov1_08980.0_eV_000of002.xrm";
      "sample1_fov1_08980.0_eV_001of002.xrm";
      "sample1_fov0_08980.0_eV_000of002.xrm";
      "sample1_fov0_08980.0_eV_001of002.xrm";
      "ref_sample1_08980.0_eV_000of001.xrm" ]
  /\ option_map scaninfo_filenames
       (out_scaninfo (scenario ["sample1"] 0 0 true))
     = Some
         [ "ref_sample1_08950.0_eV_000of001.xrm";
           "sample1_fov0_08950.0_eV_000of002.xrm";
           "sample1_fov0_08950.0_eV_001of002.xrm";
           "sample1_fov1_08950.0_eV_000of002.xrm";
           "sample1_fov1_08950.0_eV_001of002.xrm";
           "ref_sample1_08980.0_eV_000of001.xrm";
           "sample1_fov1_08980.0_eV_000of002.xrm";
           "sample1_fov1_08980.0_eV_001of002.xrm";
           "sample1_fov0_08980.0_eV_000of002.xrm";
           "sample1_fov0_08980.0_eV_001of002.xrm" ]
  /\ out_raised (scenario ["sample1"] 0 0 true) = None.
Proof.
  repeat split; vm_compute; reflexivity.
Qed.

(** C2 (the code departs from it).  Two iterations with
    [iteration_rest = 5]: the call returns, both iterations are written, and
    the script holds no [wait] line at all. *)
Theorem ssrl6_no_wait_between_iterations :
  out_raised (scenario ["a"; "b"] 5 0 true) = None
  /\ filter (String.eqb ";; 2D XANES ;;")
       (lines (out_dest (scenario ["a"; "b"] 5 0 true)))
     = [";; 2D XANES ;;"; ";; 2D XANES ;;"]
  /\ filter (prefix "wait") (lines (out_dest (scenario ["a"; "b"] 5 0 true)))
     = []
  /\ out_dest (scenario ["a"; "b"] 5 0 true)
     = out_dest (scenario ["a"; "b"] 0 0 true).
Proof.
  repeat split; vm_compute; reflexivity.
Qed.

(** C3, as stated, fails: the header above [FILES] has nineteen lines, not
    eighteen. *)
Lemma scaninfo_header_has_19_lines :
  List.length (scaninfo_header (write_scaninfo_header "" true 5 10)) = 19%nat
  /\ Nat.eqb (List.length (scaninfo_header (write_scaninfo_header "" true 5 10)))
             18
     = false.
Proof.
  split; vm_compute; reflexivity.
Qed.

(** C6, as stated, fails in floating point: with the two points 49 eV
    apart the model is built, and its prediction at the energy of [end]
    differs from [end] in the last place. *)
Lemma zoneplate_two_points_float_inexact :
  exists zp : Zoneplate.t float,
    Zoneplate.init float_start None (Some float_end) = Return zp
    /\ PrimFloat.eqb
         (x (Zoneplate.position zp (ZoneplatePoint.energy float_end)))
         (ZoneplatePoint.x float_end)
       = false
    /\ PrimFloat.ltb
         (x (Zoneplate.position zp (ZoneplatePoint.energy float_end)))
         (ZoneplatePoint.x float_end)
       = true.
Proof.
  eexists. split; [vm_compute; reflexivity|].
  split; vm_compute; reflexivity.
Qed.

(** C7, as stated, fails: with [end] alone, at the energy of [start], the
    constructor raises. *)
Lemma zoneplate_init_same_energy_raises :
  Zoneplate.init float_start None (Some float_same_energy)
  = Raise ZeroDivisionError.
Proof.
  vm_compute. reflexivity.
Qed.

(** *** Instances of the conditional statements *)

Lemma zoneplate_calibration_points_witness :
  (exists zp : Zoneplate.t Qc,
     Zoneplate.init Qc_start None (Some Qc_end) = Return zp
     /\ Zoneplate.position zp (ZoneplatePoint.energy Qc_start)
        = Position (ZoneplatePoint.x Qc_start) (ZoneplatePoint.y Qc_start)
                   (ZoneplatePoint.z Qc_start)
     /\ Zoneplate.position zp (ZoneplatePoint.energy Qc_end)
        = Position (ZoneplatePoint.x Qc_end) (ZoneplatePoint.y Qc_end)
                   (ZoneplatePoint.z Qc_end))
  /\ (exists zp : Zoneplate.t float,
       Zoneplate.init float_start None (Some float_end) = Return zp
       /\ PrimFloat.eqb
            (x (Zoneplate.position zp (ZoneplatePoint.energy float_start)))
            (ZoneplatePoint.x float_start)
          && PrimFloat.eqb
               (y (Zoneplate.position zp (ZoneplatePoint.energy float_start)))
               (ZoneplatePoint.y float_start)
          && PrimFloat.eqb
               (z (Zoneplate.position zp (ZoneplatePoint.energy float_start)))
               (ZoneplatePoint.z float_start)
          = true).
Proof.
  split.
  - destruct (proj1 zoneplate_calibration_points Qc_start Qc_end) as [zp Hzp].
    + intros Heq. apply (f_equal this) in Heq. vm_compute in Heq. discriminate.
    + exists zp. destruct Hzp as [Hinit [_ [Hstart Hend]]].
      repeat split; assumption.
  - eexists. split; [vm_compute; reflexivity|].
    apply (proj1 (proj2 zoneplate_calibration_points) float_start float_end);
      vm_compute; reflexivity.
Defined.

Lemma ssrl6_frame_rest_with_abba_raises_witness :
  truthy 3 = true
  /\ scenario ["sample1"] 0 3 true
     = {| out_dest := "";
          out_scaninfo := None;
          out_raised :=
            Some (ValueError "Cannot use `frame_rest` and `abba_mode` together.") |}.
Proof.
  split; [reflexivity|].
  unfold scenario. apply ssrl6_frame_rest_with_abba_raises; reflexivity.
Defined.

Lemma ssrl6_reference_placement_witness :
  truthy 0 && true = false
  /\ out_dest (scenario ["sample1"] 0 0 true)
     = ""
         ++ join
              (map (SSRL6.iteration_script (fun name => name) [8950; 8980]
                      scenario_zoneplate [Position 0 0 0; Position 1 1 0]
                      (Position 5 5 0) 0 2 1 2 1 true)
                   ["sample1"]).
Proof.
  split; [reflexivity|].
  unfold scenario.
  exact (proj1 (ssrl6_reference_placement string_dec (fun name => name)
                  [8950; 8980] scenario_zoneplate
                  [Position 0 0 0; Position 1 1 0] (Position 5 5 0)
                  ["sample1"] 0 0 2 1 2 1 true "" eq_refl)).
Defined.

Lemma ssrl6_frame_rest_waits_before_reference_witness :
  truthy 3 = true
  /\ exists script : string,
       out_dest (scenario ["sample1"] 0 3 false) = script
       /\ filter
            (fun line =>
               prefix "wait" line || prefix ";;;; Collect reference" line)
            (lines script)
          = ["wait 3"; ";;;; Collect reference frames";
             "wait 3"; ";;;; Collect reference frames"].
Proof.
  split; [reflexivity|]. eexists. split.
  - unfold scenario.
    refine (proj2 (proj2
      (ssrl6_frame_rest_waits_before_reference string_dec (fun name => name)
         [8950; 8980] scenario_zoneplate [Position 0 0 0; Position 1 1 0]
         (Position 5 5 0) ["sample1"] 0 3 2 1 2 1 false "" eq_refl _))).
    intros msg Hraised. vm_compute in Hraised. discriminate.
  - vm_compute. reflexivity.
Defined.

Lemma sector8_warmup_sweep_witness :
  lines (Sector8.warmup_text (T := Z) 8950)
  = map (fun k => "moveto energy " ++ fmt_2f (8950 - 100 + 2 * Z.of_nat k)%Z)
        (seq 0 50).
Proof.
  refine (proj1 (proj2 (proj2
    (sector8_warmup_sweep Z_format (fun n => str_int n ++ ".0")
       (fun name : string => name) 8950 [8980] scenario_zoneplate
       scenario_zoneplate [Position 0 0 0; Position 1 1 0] ["a"; "b"]
       ["0"] 1 30 true))) _).
  intros n. cbn [fmt_2f Z_format]. now rewrite has_nl_app, str_int_no_nl.
Defined.

(** How the scenarios print, for the statements about file names. *)
Lemma Z_fmt_2f_no_nl (n : Z) : has_nl (fmt_2f n) = false.
Proof. cbn [fmt_2f Z_format]. now rewrite has_nl_app, str_int_no_nl. Qed.

Lemma Z_fmt_071f_no_nl (n : Z) : has_nl (fmt_071f n) = false.
Proof.
  cbn [fmt_071f Z_format]. unfold zfill.
  destruct (n <? 0)%Z; now rewrite !has_nl_app, zeros_no_nl, str_int_no_nl.
Qed.

Lemma Z_str_float_no_nl (n : Z) : has_nl (str_int n ++ ".0") = false.
Proof. now rewrite has_nl_app, str_int_no_nl. Qed.

Lemma sample1_no_nl (name : string) :
  In name ["sample1"] -> has_nl name = false.
Proof. intros [<-|[]]. reflexivity. Qed.

Lemma names_a_b_no_nl (name : string) :
  In name ["a"; "b"] -> has_nl name = false.
Proof. intros [<-|[<-|[]]]; reflexivity. Qed.

Lemma ssrl6_filenames_agree_without_abba_witness :
  option_map scaninfo_filenames
    (out_scaninfo (scenario ["sample1"] 0 0 false))
  = Some (collect_filenames (out_dest (scenario ["sample1"] 0 0 false))).
Proof.
  unfold scenario.
  apply ssrl6_filenames_agree_without_abba;
    [exact sample1_no_nl|exact Z_fmt_2f_no_nl|exact Z_fmt_071f_no_nl
    |reflexivity].
Defined.

Lemma ssrl6_without_iterations_witness :
  scenario [] 5 0 true
  = {| out_dest := "";
       out_scaninfo := Some (write_scaninfo_header "" true 2 1);
       out_raised := Some (NameError "fs_name") |}.
Proof.
  unfold scenario.
  exact (ssrl6_without_iterations string_dec (fun name => name)
           [8950; 8980] scenario_zoneplate [Position 0 0 0; Position 1 1 0]
           (Position 5 5 0) [] 5 0 2 1 2 1 true "" eq_refl eq_refl).
Defined.

Lemma ssrl6_scaninfo_header_reads_back_witness :
  option_map scaninfo_header
    (out_scaninfo (scenario ["sample1"] 0 0 true))
  = Some (scaninfo_header_lines true 2 1).
Proof.
  unfold scenario. apply ssrl6_scaninfo_header_reads_back. reflexivity.
Defined.

Lemma ssrl6_frame_count_witness :
  List.length (collect_filenames (out_dest (scenario ["sample1"] 0 0 true)))
  = 10%nat.
Proof.
  unfold scenario.
  exact (ssrl6_frame_count string_dec (fun name => name)
           [8950; 8980] scenario_zoneplate [Position 0 0 0; Position 1 1 0]
           (Position 5 5 0) ["sample1"] 0 0 2 1 2 1 true
           sample1_no_nl Z_fmt_2f_no_nl Z_fmt_071f_no_nl eq_refl).
Defined.

Lemma ssrl6_scaninfo_lists_collected_frames_witness :
  exists listed,
    option_map scaninfo_filenames
      (out_scaninfo (scenario ["sample1"] 0 0 true))
    = Some listed
    /\ Permutation listed
         (collect_filenames (out_dest (scenario ["sample1"] 0 0 true))).
Proof.
  unfold scenario.
  apply ssrl6_scaninfo_lists_collected_frames;
    [exact sample1_no_nl|exact Z_fmt_2f_no_nl|exact Z_fmt_071f_no_nl
    |reflexivity].
Defined.

Lemma ssrl6_energies_in_order_witness :
  energies_set (out_dest (scenario ["sample1"] 0 0 true))
  = ["8950.00"; "8980.00"].
Proof.
  unfold scenario.
  exact (ssrl6_energies_in_order string_dec (fun name => name)
           [8950; 8980] scenario_zoneplate [Position 0 0 0; Position 1 1 0]
           (Position 5 5 0) ["sample1"] 0 0 2 1 2 1 true
           sample1_no_nl Z_fmt_2f_no_nl Z_fmt_071f_no_nl eq_refl).
Defined.

Lemma ssrl6_iteration_rest_has_no_effect_witness :
  scenario_ne (fun a b => negb (String.eqb a b)) ["a"; "b"] 5 0 true
  = scenario_ne (fun a b => negb (String.eqb a b)) ["a"; "b"] 0 0 true.
Proof.
  unfold scenario_ne.
  apply (proj1 (ssrl6_iteration_rest_has_no_effect
                  (fun a b => negb (String.eqb a b)) (fun name => name)
                  [8950; 8980] scenario_zoneplate
                  [Position 0 0 0; Position 1 1 0] (Position 5 5 0)
                  ["a"; "b"] 5 0 0 2 1 2 1 true "" "b" eq_refl)).
  reflexivity.
Defined.

Lemma zoneplate_z_step_moves_z_only_witness :
  exists zp : Zoneplate.t float,
    Zoneplate.init float_start (Some (of_int 2)) None = Return zp
    /\ PrimFloat.eqb (x (Zoneplate.position zp (of_int 8049)))
         (ZoneplatePoint.x float_start)
       && PrimFloat.eqb (y (Zoneplate.position zp (of_int 8049)))
            (ZoneplatePoint.y float_start)
       = true.
Proof.
  eexists. split; [vm_compute; reflexivity|].
  apply (proj2 zoneplate_z_step_moves_z_only float_start (of_int 2)
           (of_int 8049));
    vm_compute; reflexivity.
Defined.

Lemma zoneplate_interpolates_witness :
  exists zp : Zoneplate.t Qc,
    Zoneplate.init Qc_start None (Some Qc_end) = Return zp
    /\ Zoneplate.position zp
         (ZoneplatePoint.energy Qc_start
            + Q2Qc (1 # 2)
              * (ZoneplatePoint.energy Qc_end
                 - ZoneplatePoint.energy Qc_start))%Qc
       = Position
           (ZoneplatePoint.x Qc_start
              + Q2Qc (1 # 2)
                * (ZoneplatePoint.x Qc_end - ZoneplatePoint.x Qc_start))%Qc
           (ZoneplatePoint.y Qc_start
              + Q2Qc (1 # 2)
                * (ZoneplatePoint.y Qc_end - ZoneplatePoint.y Qc_start))%Qc
           (ZoneplatePoint.z Qc_start
              + Q2Qc (1 # 2)
                * (ZoneplatePoint.z Qc_end - ZoneplatePoint.z Qc_start))%Qc.
Proof.
  apply (zoneplate_interpolates Qc_start Qc_end (Q2Qc (1 # 2))).
  intros Heq. apply (f_equal this) in Heq. vm_compute in Heq. discriminate.
Defined.

Lemma zoneplate_calibration_order_irrelevant_witness :
  exists zp zp' : Zoneplate.t Qc,
    Zoneplate.init Qc_start None (Some Qc_end) = Return zp
    /\ Zoneplate.init Qc_end None (Some Qc_start) = Return zp'
    /\ Zoneplate.position zp (of_int 8020)
       = Zoneplate.position zp' (of_int 8020).
Proof.
  apply (zoneplate_calibration_order_irrelevant Qc_start Qc_end (of_int 8020)).
  intros Heq. apply (f_equal this) in Heq. vm_compute in Heq. discriminate.
Defined.

Lemma sector8_energy_str_at_dot_witness :
  Sector8.energy_str (fun n : Z => str_int n ++ ".0") 8950
  = Return "8950_0".
Proof.
  exact (proj2 (sector8_energy_str_at_dot (fun n : Z => str_int n ++ ".0")
                  8950)
           "8950" "0" eq_refl eq_refl eq_refl).
Defined.

Lemma sector8_script_text_witness :
  sector8_scenario true
  = ("" ++ Sector8.script_text (fun n : Z => str_int n ++ ".0") str_int
             [8950; 8980] scenario_zoneplate scenario_zoneplate
             [Position 0 0 0; Position 1 1 0] ["a"; "b"] [0] 1 30 true,
     None).
Proof.
  unfold sector8_scenario. apply sector8_script_text. reflexivity.
Defined.

Lemma sector8_abba_same_frames_witness :
  Permutation (collect_filenames (fst (sector8_scenario true)))
              (collect_filenames (fst (sector8_scenario false))).
Proof.
  unfold sector8_scenario.
  apply sector8_abba_same_frames;
    [reflexivity|exact Z_fmt_2f_no_nl
    |intros E _; apply Z_str_float_no_nl
    |intros iteration _; apply str_int_no_nl
    |exact names_a_b_no_nl].
Defined.
